(** * Work Time Tracker: session and break bookkeeping of [core/time_data.py]

    Shallow embedding of the property-group data model ([WTT_TimeSession],
    [WTT_BreakSession], [WTT_TimeData]), of the in-memory [TimeData] object and
    of the operations that read and update them, plus [utils/formatting.py].

    Modelling conventions.
    - Timestamps are the integers [int(time.time())] the code stores; they are [Z].
      [TimeData.total_time] is a Python float, but every value summed into it
      is an integer, so it is modelled as [Z] as well (a double holds every
      integer below 2^53 exactly). Its copy [pg.total_time] is a Blender
      [FloatProperty], a C [float]: see [to_float32].
    - Every operation takes the clock reading [now] as an argument: all the
      [time.time()] calls of one operation read the same instant.
    - [bpy.context.scene.wtt_time_data] is [pg : option WTT_TimeData]
      ([None] when there is no scene); the [TimeData] singleton is [td].
    - Logging is dropped. *)

From Stdlib Require Import ZArith List String Ascii Bool Lia QArith Qround Lqa.
Import ListNotations.
Open Scope Z_scope.

(** ** Data model *)

Record WTT_TimeSession := mkSession {
  sid : Z;
  sstart : Z;
  send : Z;            (* 0 means active (not ended) *)
  scomment : string
}.

Record WTT_BreakSession := mkBreak {
  bid : Z;
  bsession_id : Z;
  bstart : Z;
  bend : Z;            (* 0 means active (not ended) *)
  breason : string;
  bcomment : string
}.

Definition DATA_VERSION : Z := 1.

Record WTT_TimeData := mkPG {
  version : Z;
  pg_total_time : Z;
  pg_last_save_time : Z;
  pg_file_creation_time : Z;
  pg_file_id : string;
  sessions : list WTT_TimeSession;
  active_session_index : Z;
  last_activity_time : Z;
  is_on_break : bool;
  break_sessions : list WTT_BreakSession;
  active_break_index : Z
}.

(** The Python object [TimeData]; [file_id] is [None] until it is loaded. *)
Record TimeData := mkTD {
  total_time : Z;
  last_save_time : Z;
  file_creation_time : Z;
  file_id : option string;
  data_loaded : bool
}.

Record World := mkWorld {
  td : TimeData;
  pg : option WTT_TimeData
}.

(** Field assignments ([x.f = v]). *)
Definition set_send (v : Z) (s : WTT_TimeSession) : WTT_TimeSession :=
  mkSession (sid s) (sstart s) v (scomment s).

Definition set_sstart_send (st en : Z) (s : WTT_TimeSession) : WTT_TimeSession :=
  mkSession (sid s) st en (scomment s).

Definition set_bend (v : Z) (b : WTT_BreakSession) : WTT_BreakSession :=
  mkBreak (bid b) (bsession_id b) (bstart b) v (breason b) (bcomment b).

(** Storing a value into the [FloatProperty] [pg.total_time]: Blender keeps
    it as a C [float], so an integer-valued Python float is rounded to 24
    significant bits (to nearest, ties to even) and clamped to the property's
    hard range [[-FLT_MAX, FLT_MAX]]. Integers below 2^24 are kept as they are. *)
Definition FLT_MAX : Z := (2 ^ 24 - 1) * 2 ^ 104.

(** Rounding a non-negative integer to 24 significant bits. *)
Definition round_sig24 (n : Z) : Z :=
  if n <? 2 ^ 24 then n
  else
    let e := Z.log2 n - 23 in
    let q := Z.shiftr n e in
    let r := n - Z.shiftl q e in
    let half := Z.shiftl 1 (e - 1) in
    let q' := if r <? half then q
              else if half <? r then q + 1
              else if Z.even q then q else q + 1 in
    Z.shiftl q' e.

Definition to_float32 (x : Z) : Z :=
  let m := Z.min (round_sig24 (Z.abs x)) FLT_MAX in
  if x <? 0 then - m else m.

(** [pg.total_time = v]. *)
Definition set_pg_total (v : Z) (p : WTT_TimeData) : WTT_TimeData :=
  mkPG (version p) (to_float32 v) (pg_last_save_time p) (pg_file_creation_time p) (pg_file_id p)
    (sessions p) (active_session_index p) (last_activity_time p) (is_on_break p)
    (break_sessions p) (active_break_index p).

Definition set_pg_file_id (v : string) (p : WTT_TimeData) : WTT_TimeData :=
  mkPG (version p) (pg_total_time p) (pg_last_save_time p) (pg_file_creation_time p) v
    (sessions p) (active_session_index p) (last_activity_time p) (is_on_break p)
    (break_sessions p) (active_break_index p).

Definition set_pg_last_activity (v : Z) (p : WTT_TimeData) : WTT_TimeData :=
  mkPG (version p) (pg_total_time p) (pg_last_save_time p) (pg_file_creation_time p)
    (pg_file_id p) (sessions p) (active_session_index p) v (is_on_break p)
    (break_sessions p) (active_break_index p).

(** [pg.sessions], [pg.active_session_index] *)
Definition set_pg_sessions (ss : list WTT_TimeSession) (idx : Z) (p : WTT_TimeData)
  : WTT_TimeData :=
  mkPG (version p) (pg_total_time p) (pg_last_save_time p) (pg_file_creation_time p)
    (pg_file_id p) ss idx (last_activity_time p) (is_on_break p)
    (break_sessions p) (active_break_index p).

(** [pg.break_sessions], [pg.is_on_break], [pg.active_break_index] *)
Definition set_pg_breaks (bs : list WTT_BreakSession) (onb : bool) (bidx : Z)
  (p : WTT_TimeData) : WTT_TimeData :=
  mkPG (version p) (pg_total_time p) (pg_last_save_time p) (pg_file_creation_time p)
    (pg_file_id p) (sessions p) (active_session_index p) (last_activity_time p) onb
    bs bidx.

Definition set_td_total (v : Z) (t : TimeData) : TimeData :=
  mkTD v (last_save_time t) (file_creation_time t) (file_id t) (data_loaded t).

Definition set_td_file_id (v : option string) (t : TimeData) : TimeData :=
  mkTD (total_time t) (last_save_time t) (file_creation_time t) v (data_loaded t).

(** ** [TimeData._sum_breaks_for_session] *)

Definition sum_breaks_step (session_id start_cap end_cap : Z) (total : Z)
  (b : WTT_BreakSession) : Z :=
  if negb (bsession_id b =? session_id) || (bstart b <=? 0) then total
  else
    let bstart' := Z.max start_cap (bstart b) in
    let bend0 := if 0 <? bend b then bend b else end_cap in
    let bend' := Z.min bend0 end_cap in
    total + Z.max 0 (bend' - bstart').

Definition _sum_breaks_for_session (p : WTT_TimeData) (session_id end_cap : Z) : Z :=
  match find (fun s => sid s =? session_id) (sessions p) with
  | None => 0
  | Some session =>
      Z.max 0 (fold_left (sum_breaks_step session_id (sstart session) end_cap)
                 (break_sessions p) 0)
  end.

(** ** [TimeData.update_total_time] *)

Definition session_end_cap (now : Z) (s : WTT_TimeSession) : Z :=
  if send s <=? 0 then now else send s.

Definition total_step (now : Z) (p : WTT_TimeData) (total : Z) (s : WTT_TimeSession) : Z :=
  let end_cap := session_end_cap now s in
  if sstart s <=? 0 then total
  else
    let base := Z.max 0 (end_cap - sstart s) in
    let breaks := _sum_breaks_for_session p (sid s) end_cap in
    let work := Z.max 0 (base - breaks) in
    total + work.

Definition recalc_total (now : Z) (p : WTT_TimeData) : Z :=
  fold_left (total_step now p) (sessions p) 0.

Definition update_total_time_pg (now : Z) (t : TimeData) (p : WTT_TimeData)
  : TimeData * WTT_TimeData :=
  let total := recalc_total now p in
  (set_td_total total t, set_pg_total total p).

Definition update_total_time (now : Z) (w : World) : World :=
  match pg w with
  | None => mkWorld (set_td_total 0 (td w)) None
  | Some p => let '(t', p') := update_total_time_pg now (td w) p in mkWorld t' (Some p')
  end.

(** ** [TimeData.end_active_sessions] *)

(** The inner loop: [for b in pg.break_sessions: if b.session_id == s.id and
    b.start > 0 and b.end <= 0: b.end = now]. *)
Definition close_breaks_of (now session_id : Z) (bs : list WTT_BreakSession)
  : list WTT_BreakSession :=
  map (fun b => if (bsession_id b =? session_id) && (0 <? bstart b) && (bend b <=? 0)
                then set_bend now b else b) bs.

(** The outer loop over [pg.sessions]; the break list is threaded through it
    because each ended session mutates it in place. *)
Fixpoint end_loop (now : Z) (ss : list WTT_TimeSession) (bs : list WTT_BreakSession)
  : list WTT_TimeSession * list WTT_BreakSession * Z :=
  match ss with
  | [] => ([], bs, 0)
  | s :: rest =>
      if send s <=? 0 then
        let bs1 := close_breaks_of now (sid s) bs in
        let '(rest', bs2, c) := end_loop now rest bs1 in
        (set_send now s :: rest', bs2, c + 1)
      else
        let '(rest', bs2, c) := end_loop now rest bs in
        (s :: rest', bs2, c)
  end.

Definition end_active_sessions_pg (now : Z) (t : TimeData) (p : WTT_TimeData)
  : TimeData * WTT_TimeData * Z :=
  let '(ss', bs', ended_count) := end_loop now (sessions p) (break_sessions p) in
  if ended_count =? 0 then
    (t, set_pg_breaks bs' (is_on_break p) (active_break_index p)
          (set_pg_sessions ss' (active_session_index p) p), 0)
  else
    let p2 := set_pg_breaks bs' false (-1) (set_pg_sessions ss' (-1) p) in
    let '(t3, p3) := update_total_time_pg now t p2 in
    (t3, p3, ended_count).

Definition end_active_sessions (now : Z) (w : World) : World * Z :=
  match pg w with
  | None => (w, 0)
  | Some p => let '(t', p', c) := end_active_sessions_pg now (td w) p in
              (mkWorld t' (Some p'), c)
  end.

(** ** [TimeData._sync_to_pg] and [TimeData.save_data] *)

Definition _sync_to_pg (t : TimeData) (p : WTT_TimeData) : WTT_TimeData :=
  mkPG DATA_VERSION (to_float32 (total_time t)) (last_save_time t) (file_creation_time t)
    (match file_id t with Some f => f | None => "" end)
    (sessions p) (active_session_index p) (last_activity_time p) (is_on_break p)
    (break_sessions p) (active_break_index p).

Definition set_td_last_save (v : Z) (t : TimeData) : TimeData :=
  mkTD (total_time t) v (file_creation_time t) (file_id t) (data_loaded t).

Definition save_data (now : Z) (w : World) : World :=
  let w1 := update_total_time now w in
  let t2 := set_td_last_save now (td w1) in
  match pg w1 with
  | None => mkWorld t2 None
  | Some p1 => mkWorld t2 (Some (_sync_to_pg t2 p1))
  end.

(** ** [TimeData.start_session] and [TimeData.switch_session] *)

Definition start_session_pg (now : Z) (t : TimeData) (p : WTT_TimeData)
  : TimeData * WTT_TimeData * Z :=
  let '(t1, p1, _) := end_active_sessions_pg now t p in
  let n := Z.of_nat (List.length (sessions p1) + 1) in
  let item := mkSession n now 0 "" in
  let p2 := mkPG (version p1) (pg_total_time p1) (pg_last_save_time p1)
              (pg_file_creation_time p1) (pg_file_id p1)
              (app (sessions p1) [item]) (n - 1) now false
              (break_sessions p1) (-1) in
  let '(t3, p3) := update_total_time_pg now t1 p2 in
  (t3, p3, n).

Definition start_session (now : Z) (w : World) : World * Z :=
  match pg w with
  | None => (w, -1)
  | Some p => let '(t', p', r) := start_session_pg now (td w) p in
              (mkWorld t' (Some p'), r)
  end.

Definition switch_session (now : Z) (w : World) : World * bool :=
  let '(w1, _) := end_active_sessions now w in
  let '(w2, _) := start_session now w1 in
  (save_data now w2, true).

(** ** [TimeData.reset] *)

Definition reset (now : Z) (w : World) : World :=
  match pg w with
  | None => w
  | Some p =>
      let t1 := mkTD 0 now now (file_id (td w)) (data_loaded (td w)) in
      let p1 := _sync_to_pg t1 p in
      let p2 := mkPG (version p1) (pg_total_time p1) (pg_last_save_time p1)
                  (pg_file_creation_time p1) (pg_file_id p1) [] (-1) now false [] (-1) in
      fst (start_session now (mkWorld t1 (Some p2)))
  end.

(** [lst[i] = f(lst[i])] for an index known to be in range. *)
Fixpoint list_update_nth {A} (i : nat) (f : A -> A) (l : list A) : list A :=
  match l, i with
  | [], _ => []
  | x :: r, O => f x :: r
  | x :: r, S i' => x :: list_update_nth i' f r
  end.

(** ** [TimeData.reset_current_session]

    [to_keep] is modelled as the list of the kept breaks' field values as
    they were before [pg.break_sessions.clear()], i.e. the copy the code
    intends. The source keeps references to the collection's items, not
    copies, and reads them only after [clear()] and [add()]: what those reads
    return is decided by Blender's storage of the collection (the cleared
    slots are reused by [add()]), not by this code. No statement below
    depends on the contents of the kept breaks. *)
Definition reset_current_session (now : Z) (w : World) : World * bool :=
  match pg w with
  | None => (w, false)
  | Some p =>
      let idx := active_session_index p in
      if (idx <? 0) || (Z.of_nat (List.length (sessions p)) <=? idx) then (w, false)
      else
        let i := Z.to_nat idx in
        match nth_error (sessions p) i with
        | None => (w, false)
        | Some s =>
            let ss' := list_update_nth i (set_sstart_send now 0) (sessions p) in
            let to_keep := filter (fun b => negb (bsession_id b =? sid s))
                             (break_sessions p) in
            let p1 := set_pg_breaks to_keep false (-1)
                        (set_pg_sessions ss' idx p) in
            let w1 := update_total_time now (mkWorld (td w) (Some p1)) in
            (save_data now w1, true)
        end
  end.

(** ** [TimeData.get_current_session] *)

Definition get_current_session (p : WTT_TimeData) : option WTT_TimeSession :=
  let idx := active_session_index p in
  if (0 <=? idx) && (idx <? Z.of_nat (List.length (sessions p))) then
    nth_error (sessions p) (Z.to_nat idx)
  else find (fun s => send s <=? 0) (rev (sessions p)).

(** ** [bpy.path.basename]: the part of the path after its last ['/']. *)
Fixpoint basename_aux (s acc : string) : string :=
  match s with
  | EmptyString => acc
  | String c rest =>
      if Ascii.eqb c "/"%char then basename_aux rest EmptyString
      else basename_aux rest (String.append acc (String c EmptyString))
  end.

Definition basename (s : string) : string := basename_aux s EmptyString.

(** ** [TimeData.load_data]; [filepath] is [bpy.data.filepath] ([""] when unsaved). *)
Definition load_data (now : Z) (filepath : string) (w : World) : World :=
  let current_file_id :=
    if String.eqb filepath EmptyString then "unsaved_file"%string else basename filepath in
  let t1 := set_td_file_id (Some current_file_id) (td w) in
  match pg w with
  | None => mkWorld t1 None
  | Some p =>
      let p1 := if last_activity_time p <=? 0 then set_pg_last_activity now p else p in
      let p2 := if String.eqb (pg_file_id p1) EmptyString
                then set_pg_file_id current_file_id p1 else p1 in
      update_total_time now (mkWorld t1 (Some p2))
  end.

Definition set_td_loaded (v : bool) (t : TimeData) : TimeData :=
  mkTD (total_time t) (last_save_time t) (file_creation_time t) (file_id t) v.

(** ** [load_handler] and [save_handler] *)
Definition load_handler (now : Z) (filepath : string) (w : World) : World :=
  if data_loaded (td w) then w
  else
    let w1 := load_data now filepath w in
    let w2 := mkWorld (set_td_loaded true (td w1)) (pg w1) in
    fst (start_session now w2).

Definition save_handler (now : Z) (filepath : string) (w : World) : World :=
  let w1 := if String.eqb filepath EmptyString then w
            else mkWorld (set_td_file_id (Some (basename filepath)) (td w)) (pg w) in
  save_data now w1.

(** ** [update_time_callback]

    [pref] is [getattr(prefs, "break_threshold_seconds", 300)] read from the
    add-on preferences; [None] stands for the attribute or the preferences
    being unavailable (the [except] branch).  The re-registration of the
    handlers at the top of the callback does not touch the data and is not
    modelled. *)

Definition break_threshold (pref : option Z) : Z :=
  Z.max 30 (match pref with Some v => v | None => 300 end).

(** The idle-detection and break-management block ([if pg: ...]). *)
Definition break_check (now : Z) (pref : option Z) (p : WTT_TimeData) : WTT_TimeData :=
  let p0 := if last_activity_time p <=? 0 then set_pg_last_activity now p else p in
  let idle := now - last_activity_time p0 in
  let threshold := break_threshold pref in
  if negb (is_on_break p0) && (threshold <=? idle) then
    let bs := break_sessions p0 in
    let new_len := Z.of_nat (List.length bs + 1) in
    let current := get_current_session p0 in
    let session_id := match current with Some c => sid c | None => 0 end in
    let start_candidate :=
      if 0 <? last_activity_time p0 then last_activity_time p0 else now - idle in
    let st := match current with
              | Some c => Z.max (sstart c) start_candidate
              | None => start_candidate
              end in
    let bi := mkBreak new_len session_id st 0 "inactivity" "" in
    set_pg_breaks (app bs [bi]) true (new_len - 1) p0
  else if is_on_break p0 && (idle <? 1) then
    let idx := active_break_index p0 in
    let bs := break_sessions p0 in
    let bs' := if (0 <=? idx) && (idx <? Z.of_nat (List.length bs))
               then list_update_nth (Z.to_nat idx) (set_bend now) bs else bs in
    set_pg_breaks bs' false (-1) (set_pg_last_activity now p0)
  else p0.

Definition file_changed (filepath : string) (t : TimeData) : bool :=
  negb (String.eqb filepath EmptyString) &&
  negb (match file_id t with
        | Some f => String.eqb f (basename filepath)
        | None => false
        end).

Definition update_time_callback (now : Z) (filepath : string) (pref : option Z)
  (w : World) : World :=
  let w1 := match pg w with
            | None => w
            | Some p => mkWorld (td w) (Some (break_check now pref p))
            end in
  let w2 := update_total_time now w1 in
  if file_changed filepath (td w2) then
    let w3 := fst (end_active_sessions now w2) in
    let w4 := mkWorld (set_td_file_id (Some (basename filepath)) (td w3)) (pg w3) in
    let w5 := fst (start_session now w4) in
    save_data now w5
  else w2.

(** ** [utils/formatting.format_time]

    The argument is a Python float, i.e. a rational number: [Q]. *)

(** [int(x)]: truncation toward zero. *)
Definition py_int (x : Q) : Z :=
  if Qle_bool 0 x then Qfloor x else - Qfloor (- x).

Definition digit_char (d : Z) : ascii := ascii_of_nat (48 + Z.to_nat d).

Fixpoint digits_aux (fuel : nat) (n : Z) (acc : string) : string :=
  match fuel with
  | O => acc
  | S f =>
      let acc' := String (digit_char (n mod 10)) acc in
      if n <? 10 then acc' else digits_aux f (n / 10) acc'
  end.

(** [str(n)] for [n >= 0]: its decimal digits. *)
Definition dec_string (n : Z) : string :=
  digits_aux (S (Z.to_nat (Z.log2 n))) n EmptyString.

(** [f"{n:02d}"]: zero-padded to width 2, the sign counting in the width. *)
Definition format_02d (n : Z) : string :=
  if n <? 0 then String "-"%char (dec_string (- n))
  else let s := dec_string n in
       if (String.length s <? 2)%nat then String "0"%char s else s.

Definition format_time (seconds : Q) : string :=
  let hours := Z.div (py_int seconds) 3600 in
  let remainder := Z.modulo (py_int seconds) 3600 in
  let minutes := Z.div remainder 60 in
  let secs := Z.modulo remainder 60 in
  String.append (format_02d hours)
    (String.append ":"
       (String.append (format_02d minutes)
          (String.append ":" (format_02d secs)))).

Example format_time_ex1 : format_time (3725 # 1) = "01:02:05"%string.
Proof. reflexivity. Qed.

Example format_time_ex2 : format_time (3599999 # 10) = "99:59:59"%string.
Proof. reflexivity. Qed.

Example format_time_ex3 : format_time (400000 # 1) = "111:06:40"%string.
Proof. reflexivity. Qed.

(** ** [utils/formatting.format_hours_minutes] *)
Definition format_hours_minutes (seconds : Q) : string :=
  let hours := Z.div (py_int seconds) 3600 in
  let remainder := Z.modulo (py_int seconds) 3600 in
  let minutes := Z.div remainder 60 in
  String.append (format_02d hours) (String.append ":" (format_02d minutes)).

(** ** Queries and updates of the current session *)

(** [TimeData.get_current_session] through [self._pg()]. *)
Definition get_current_session_w (w : World) : option WTT_TimeSession :=
  match pg w with
  | None => None
  | Some p => get_current_session p
  end.

(** [TimeData.get_session_work_seconds_by_id] *)
Definition get_session_work_seconds_by_id (now : Z) (w : World) (session_id : Z) : Z :=
  match pg w with
  | None => 0
  | Some p =>
      match find (fun s => sid s =? session_id) (sessions p) with
      | None => 0
      | Some s =>
          let end_cap := if send s <=? 0 then now else send s in
          let base := Z.max 0 (end_cap - sstart s) in
          Z.max 0 (base - _sum_breaks_for_session p session_id end_cap)
      end
  end.

(** [TimeData.get_current_session_time] *)
Definition get_current_session_time (now : Z) (w : World) : Z :=
  match get_current_session_w w with
  | None => 0
  | Some s => get_session_work_seconds_by_id now w (sid s)
  end.

(** [TimeData.update_session]: the new state and the returned value. *)
Definition update_session (now : Z) (w : World) : World * Z :=
  let w1 := update_total_time now w in
  (w1, get_current_session_time now w1).

(** [TimeData.get_session_comment] *)
Definition get_session_comment (w : World) : string :=
  match get_current_session_w w with
  | Some s => scomment s
  | None => EmptyString
  end.

Fixpoint find_index {A} (f : A -> bool) (l : list A) : option nat :=
  match l with
  | [] => None
  | x :: r => if f x then Some O else option_map S (find_index f r)
  end.

(** The position in [pg.sessions] of the item that [get_current_session]
    returns: the one the in-place assignment [s.comment = ...] writes to. *)
Definition get_current_session_pos (p : WTT_TimeData) : option nat :=
  let idx := active_session_index p in
  let n := List.length (sessions p) in
  if (0 <=? idx) && (idx <? Z.of_nat n) then Some (Z.to_nat idx)
  else option_map (fun k => (n - 1 - k)%nat)
         (find_index (fun s => send s <=? 0) (rev (sessions p))).

Definition set_scomment (c : string) (s : WTT_TimeSession) : WTT_TimeSession :=
  mkSession (sid s) (sstart s) (send s) c.

(** [TimeData.set_session_comment] *)
Definition set_session_comment (now : Z) (comment : string) (w : World) : World * bool :=
  match pg w with
  | None => (w, false)
  | Some p =>
      match get_current_session_pos p with
      | None => (w, false)
      | Some i =>
          let p1 := set_pg_sessions (list_update_nth i (set_scomment comment) (sessions p))
                      (active_session_index p) p in
          (save_data now (mkWorld (td w) (Some p1)), true)
      end
  end.

(** ** [depsgraph_activity_handler]: only [pg.last_activity_time] is written. *)
Definition depsgraph_activity_handler (now : Z) (w : World) : World :=
  match pg w with
  | None => w
  | Some p => mkWorld (td w) (Some (set_pg_last_activity now p))
  end.

(** ** [TimeDataManager.clear_instance]: [end_active_sessions], [save_data],
    then the [TimeData] object is dropped; what is left is the scene data. *)
Definition clear_instance (now : Z) (w : World) : option WTT_TimeData :=
  pg (save_data now (fst (end_active_sessions now w))).

(** ** [TimeData.ensure_loaded] and [delayed_start] (the timer registration
    at its end is not modelled). *)
Definition ensure_loaded (now : Z) (filepath : string) (w : World) : World :=
  if data_loaded (td w) then w
  else
    let w1 := load_data now filepath w in
    mkWorld (set_td_loaded true (td w1)) (pg w1).

Definition delayed_start (now : Z) (filepath : string) (w : World) : World :=
  if data_loaded (td w) then w
  else
    let w1 := ensure_loaded now filepath w in
    match pg w1 with
    | Some p =>
        if Nat.eqb (List.length (sessions p)) 0 then fst (start_session now w1) else w1
    | None => w1
    end.

(** ** Operators of [operators/time_ops.py] *)

(** [TIMETRACKER_OT_reset_data.execute] *)
Definition reset_data_execute (now : Z) (w : World) : World :=
  save_data now (reset now w).

(** The [Duration] column of [TIMETRACKER_OT_export_data.execute]: one value
    per session, in order. *)
Definition export_session_durations (now : Z) (w : World) : list Z :=
  match pg w with
  | None => []
  | Some p => map (fun s => get_session_work_seconds_by_id now w (sid s)) (sessions p)
  end.

(** How an operator's [execute] ends: it returns [{"FINISHED"}] or
    [{"CANCELLED"}], or it raises an exception (Blender reports it and the
    operator does not finish; what was written before the exception stays). *)
Inductive op_outcome := op_finished | op_cancelled | op_type_error.

(** [TIMETRACKER_OT_clear_breaks.execute]. When a started break is active,
    the operator runs [br.end = now] with [now = time.time()], a Python
    float, and assigning a float to the [IntProperty] [end] raises
    [TypeError] before anything has been written. *)
Definition clear_breaks_execute (w : World) : World * op_outcome :=
  match pg w with
  | None => (w, op_cancelled)
  | Some p =>
      let idx := active_break_index p in
      let bs := break_sessions p in
      let finish := (mkWorld (td w) (Some (set_pg_breaks [] false (-1) p)), op_finished) in
      if is_on_break p && (0 <=? idx) && (idx <? Z.of_nat (List.length bs)) then
        match nth_error bs (Z.to_nat idx) with
        | Some br => if 0 <? bstart br then (w, op_type_error) else finish
        | None => finish
        end
      else finish
  end.

(** ** Reachable states

    One step is one call of an entry point of the module, with a positive
    clock reading. *)
Inductive step : World -> World -> Prop :=
| step_start_session now w : 0 < now -> step w (fst (start_session now w))
| step_switch_session now w : 0 < now -> step w (fst (switch_session now w))
| step_end_active_sessions now w : 0 < now -> step w (fst (end_active_sessions now w))
| step_reset now w : 0 < now -> step w (reset now w)
| step_reset_current_session now w :
    0 < now -> step w (fst (reset_current_session now w))
| step_load_handler now fp w : 0 < now -> step w (load_handler now fp w)
| step_save_handler now fp w : 0 < now -> step w (save_handler now fp w)
| step_update_time_callback now fp pref w :
    0 < now -> step w (update_time_callback now fp pref w).

(** Starting points: no scene, or a property group whose session list is
    empty and whose [active_session_index] has its default (negative) value. *)
Inductive reachable : World -> Prop :=
| reach_no_scene t : reachable (mkWorld t None)
| reach_empty t p :
    sessions p = [] -> active_session_index p < 0 -> reachable (mkWorld t (Some p))
| reach_step w w' : reachable w -> step w w' -> reachable w'.

(** ** Specification-side definitions used in the statements *)

Definition is_open (s : WTT_TimeSession) : bool := send s <=? 0.

Definition count_open (ss : list WTT_TimeSession) : nat :=
  List.length (filter is_open ss).

Definition zsum (l : list Z) : Z := fold_right Z.add 0 l.

(** Total as the spec describes it: per session with a positive start,
    [max(0, end_cap - start - B)] with [B] the clamped break overlap. *)
Definition spec_break_overlap (start end_cap : Z) (b : WTT_BreakSession) : Z :=
  Z.max 0 (Z.min (if 0 <? bend b then bend b else end_cap) end_cap
           - Z.max start (bstart b)).

Definition spec_breaks (now : Z) (p : WTT_TimeData) (s : WTT_TimeSession) : Z :=
  zsum (map (spec_break_overlap (sstart s) (session_end_cap now s))
          (filter (fun b => (bsession_id b =? sid s) && (0 <? bstart b))
             (break_sessions p))).

Definition spec_contrib (now : Z) (p : WTT_TimeData) (s : WTT_TimeSession) : Z :=
  if 0 <? sstart s
  then Z.max 0 (session_end_cap now s - sstart s - spec_breaks now p s)
  else 0.

(** ** Proofs *)

(** *** [format_time] *)

Lemma digits_aux_length (fuel : nat) (n : Z) (acc : string) :
  (String.length acc <= String.length (digits_aux fuel n acc))%nat.
Proof.
  revert n acc; induction fuel as [|f IH]; intros n acc; simpl; [lia|].
  destruct (n <? 10); simpl; [lia|].
  specialize (IH (n / 10) (String (digit_char (n mod 10)) acc)); simpl in IH; lia.
Qed.

Lemma dec_string_nonempty (n : Z) : (1 <= String.length (dec_string n))%nat.
Proof.
  unfold dec_string; simpl.
  destruct (n <? 10); simpl; [lia|].
  pose proof (digits_aux_length (Z.to_nat (Z.log2 n)) (n / 10)
                (String (digit_char (n mod 10)) EmptyString)) as H; simpl in H; lia.
Qed.

Lemma format_02d_width (n : Z) : (2 <= String.length (format_02d n))%nat.
Proof.
  unfold format_02d.
  pose proof (dec_string_nonempty (- n)); pose proof (dec_string_nonempty n).
  destruct (n <? 0); simpl; [lia|].
  destruct (String.length (dec_string n) <? 2)%nat eqn:E; simpl;
    [lia | apply Nat.ltb_ge in E; lia].
Qed.

Lemma py_int_nonneg (x : Q) : (0 <= x)%Q -> py_int x = Qfloor x.
Proof.
  intro Hx; unfold py_int.
  assert (E : Qle_bool 0 x = true) by (apply Qle_bool_iff; exact Hx).
  rewrite E; reflexivity.
Qed.

Lemma Qfloor_div_3600 (x : Q) : Qfloor (x / inject_Z 3600) = Qfloor x / 3600.
Proof.
  destruct x as [a b]; unfold Qdiv, Qmult, Qfloor; simpl.
  rewrite Z.mul_1_r, Pos2Z.inj_mul, Z.div_div; [reflexivity | lia | lia].
Qed.

(** C10: for a non-negative number of seconds, [format_time] yields
    ["HH:MM:SS"] with [HH = floor(seconds/3600)],
    [MM = floor((floor(seconds) mod 3600)/60)], [SS = floor(seconds) mod 60],
    each field formatted with [02d] (at least two characters); [MM] and [SS]
    lie in [0, 60) and the fractional part is truncated. *)
Theorem format_time_fields (seconds : Q) (Hnonneg : (0 <= seconds)%Q) :
  format_time seconds =
    String.append (format_02d (Qfloor (seconds / inject_Z 3600)))
      (String.append ":"
        (String.append (format_02d ((Qfloor seconds mod 3600) / 60))
          (String.append ":" (format_02d (Qfloor seconds mod 60))))) /\
  0 <= (Qfloor seconds mod 3600) / 60 < 60 /\
  0 <= Qfloor seconds mod 60 < 60 /\
  (2 <= String.length (format_02d (Qfloor (seconds / inject_Z 3600))))%nat /\
  (2 <= String.length (format_02d ((Qfloor seconds mod 3600) / 60)))%nat /\
  (2 <= String.length (format_02d (Qfloor seconds mod 60)))%nat.
Proof.
  unfold format_time; rewrite (py_int_nonneg _ Hnonneg), Qfloor_div_3600.
  rewrite (Z.mod_mod_divide (Qfloor seconds) 3600 60) by (exists 60; reflexivity).
  repeat split; try apply format_02d_width.
  - apply Z.div_pos; [apply Z.mod_pos_bound|]; lia.
  - apply Z.div_lt_upper_bound; [lia|].
    pose proof (Z.mod_pos_bound (Qfloor seconds) 3600); lia.
  - apply Z.mod_pos_bound; lia.
  - apply Z.mod_pos_bound; lia.
Qed.

Lemma format_time_fields_witness :
  (0 <= 74537 # 20)%Q /\
  format_time (74537 # 20) = "01:02:06"%string /\
  (Qfloor ((74537 # 20) / inject_Z 3600) = 1 /\
   (Qfloor (74537 # 20) mod 3600) / 60 = 2 /\ Qfloor (74537 # 20) mod 60 = 6).
Proof.
  assert (H : (0 <= 74537 # 20)%Q) by (unfold Qle; simpl; lia).
  split; [exact H|].
  destruct (format_time_fields (74537 # 20) H) as [E _].
  split; [rewrite E; vm_compute; reflexivity | vm_compute; repeat split].
Defined.

(** *** [update_total_time] *)

Definition interval_frame (p : WTT_TimeData)
  : list WTT_TimeSession * list WTT_BreakSession * Z * Z * bool :=
  (sessions p, break_sessions p, active_session_index p, active_break_index p,
   is_on_break p).

Lemma recalc_total_set_pg_total (now v : Z) (p : WTT_TimeData) :
  recalc_total now (set_pg_total v p) = recalc_total now p.
Proof. reflexivity. Qed.

Lemma update_total_time_twice (now : Z) (w : World) :
  update_total_time now (update_total_time now w) = update_total_time now w.
Proof. destruct w as [t [p|]]; reflexivity. Qed.

Lemma update_total_time_frame (now : Z) (w : World) :
  option_map interval_frame (pg (update_total_time now w)) =
  option_map interval_frame (pg w).
Proof. destruct w as [t [p|]]; reflexivity. Qed.

(** C6: with the clock fixed, running [update_total_time] any positive number
    of times gives the same state as running it once, and it leaves the
    sessions, the breaks, the active indices and [is_on_break] unchanged. *)
Theorem update_total_time_idempotent (now : Z) (w : World) (n : nat) :
  Nat.iter (S n) (update_total_time now) w = update_total_time now w /\
  total_time (td (Nat.iter (S n) (update_total_time now) w)) =
    total_time (td (update_total_time now w)) /\
  option_map interval_frame (pg (Nat.iter (S n) (update_total_time now) w)) =
    option_map interval_frame (pg w).
Proof.
  assert (Hit : Nat.iter (S n) (update_total_time now) w = update_total_time now w).
  { induction n as [|n IH]; [reflexivity|].
    change (Nat.iter (S (S n)) (update_total_time now) w)
      with (update_total_time now (Nat.iter (S n) (update_total_time now) w)).
    rewrite IH; apply update_total_time_twice. }
  rewrite Hit; split; [reflexivity|split; [reflexivity|apply update_total_time_frame]].
Qed.

(** *** [save_data] *)

(** C7: [save_data] sets [last_save_time] to the clock and writes only the
    metadata fields of the property group (version, total, last save time,
    file creation time, file id); sessions, breaks, active indices,
    [is_on_break] and [last_activity_time] are unchanged. The in-memory total
    is the recomputed one; the property group's [total_time] holds it as a
    C [float] ([to_float32]). *)
Theorem save_data_metadata_only (now : Z) (t : TimeData) (p : WTT_TimeData) :
  let w' := save_data now (mkWorld t (Some p)) in
  last_save_time (td w') = now /\
  total_time (td w') = recalc_total now p /\
  pg w' = Some (mkPG DATA_VERSION (to_float32 (recalc_total now p)) now
                  (file_creation_time t)
                  (match file_id t with Some f => f | None => ""%string end)
                  (sessions p) (active_session_index p) (last_activity_time p)
                  (is_on_break p) (break_sessions p) (active_break_index p)).
Proof. simpl; repeat split. Qed.

(** *** [save_handler] *)

Definition td0 : TimeData := mkTD 0 0 0 None true.

(** A document with one open session (#1, started at 500) as the active one. *)
Definition pg_one_open : WTT_TimeData :=
  mkPG DATA_VERSION 0 0 0 "scene.blend" [mkSession 1 500 0 ""] 0 500 false [] (-1).

(** C5 (as stated, refuted): after a save at time 1000 the active session of
    [pg_one_open] is still open. *)
Lemma save_handler_keeps_active_session_open :
  exists p', pg (save_handler 1000 "/tmp/scene.blend" (mkWorld td0 (Some pg_one_open)))
             = Some p' /\
             active_session_index p' = 0 /\
             nth_error (sessions p') 0 = Some (mkSession 1 500 0 "") /\
             is_open (mkSession 1 500 0 "") = true.
Proof. eexists; repeat split. Qed.

(** C5 (amended): [save_handler] does not close the active session: it only
    updates [file_id] from the saved path (when there is one) and runs
    [save_data]; sessions, breaks, active indices and [is_on_break] are left
    as they were. *)
Theorem save_handler_checkpoints (now : Z) (filepath : string) (t : TimeData)
  (p : WTT_TimeData) :
  let w' := save_handler now filepath (mkWorld t (Some p)) in
  (exists p', pg w' = Some p' /\ interval_frame p' = interval_frame p) /\
  file_id (td w') =
    (if String.eqb filepath EmptyString then file_id t else Some (basename filepath)) /\
  last_save_time (td w') = now.
Proof.
  unfold save_handler; destruct (String.eqb filepath EmptyString);
    simpl; repeat split; eexists; split; reflexivity.
Qed.

(** *** [update_total_time] computes the spec's sum *)

Lemma find_unique_id (ss : list WTT_TimeSession) (s : WTT_TimeSession) :
  NoDup (map sid ss) -> In s ss -> find (fun x => sid x =? sid s) ss = Some s.
Proof.
  induction ss as [|x r IH]; simpl; intros Hnd Hin; [contradiction|].
  inversion Hnd as [|? ? Hnotin Hnd']; subst.
  destruct (Z.eqb_spec (sid x) (sid s)) as [E|E].
  - destruct Hin as [->|Hin]; [reflexivity|].
    exfalso; apply Hnotin; rewrite E; apply in_map; exact Hin.
  - destruct Hin as [->|Hin]; [contradiction|auto].
Qed.

Lemma zsum_nonneg (l : list Z) : Forall (fun z => 0 <= z) l -> 0 <= zsum l.
Proof. induction 1; simpl; lia. Qed.

Lemma spec_break_overlap_nonneg (st ec : Z) (b : WTT_BreakSession) :
  0 <= spec_break_overlap st ec b.
Proof. unfold spec_break_overlap; lia. Qed.

Lemma spec_breaks_nonneg (now : Z) (p : WTT_TimeData) (s : WTT_TimeSession) :
  0 <= spec_breaks now p s.
Proof.
  unfold spec_breaks; apply zsum_nonneg, Forall_forall.
  intros z Hz; apply in_map_iff in Hz as (b & <- & _); apply spec_break_overlap_nonneg.
Qed.

Lemma fold_sum_breaks (session_id st ec acc : Z) (bs : list WTT_BreakSession) :
  fold_left (sum_breaks_step session_id st ec) bs acc =
  acc + zsum (map (spec_break_overlap st ec)
                (filter (fun b => (bsession_id b =? session_id) && (0 <? bstart b)) bs)).
Proof.
  revert acc; induction bs as [|b r IH]; intros acc; simpl; [lia|].
  rewrite IH; unfold sum_breaks_step.
  rewrite (Z.ltb_antisym (bstart b) 0).
  destruct (bsession_id b =? session_id), (bstart b <=? 0); simpl; try lia.
  unfold spec_break_overlap; lia.
Qed.

Lemma sum_breaks_for_known_session (now : Z) (p : WTT_TimeData) (s : WTT_TimeSession) :
  find (fun x => sid x =? sid s) (sessions p) = Some s ->
  _sum_breaks_for_session p (sid s) (session_end_cap now s) = spec_breaks now p s.
Proof.
  intros Hf; unfold _sum_breaks_for_session; rewrite Hf, fold_sum_breaks.
  pose proof (spec_breaks_nonneg now p s) as Hn; unfold spec_breaks in *; lia.
Qed.

Lemma fold_total_step (now : Z) (p : WTT_TimeData) (l : list WTT_TimeSession) (acc : Z) :
  (forall s, In s l -> find (fun x => sid x =? sid s) (sessions p) = Some s) ->
  fold_left (total_step now p) l acc = acc + zsum (map (spec_contrib now p) l).
Proof.
  revert acc; induction l as [|s r IH]; intros acc Hl; simpl; [lia|].
  rewrite IH by (intros; apply Hl; right; assumption).
  unfold total_step, spec_contrib.
  rewrite (sum_breaks_for_known_session now p s) by (apply Hl; left; reflexivity).
  pose proof (spec_breaks_nonneg now p s).
  rewrite (Z.ltb_antisym (sstart s) 0); destruct (sstart s <=? 0); simpl; lia.
Qed.

Lemma spec_contrib_nonneg (now : Z) (p : WTT_TimeData) (s : WTT_TimeSession) :
  0 <= spec_contrib now p s.
Proof. unfold spec_contrib; destruct (0 <? sstart s); lia. Qed.

Lemma recalc_total_spec (now : Z) (p : WTT_TimeData) :
  NoDup (map sid (sessions p)) ->
  recalc_total now p = zsum (map (spec_contrib now p) (sessions p)).
Proof.
  intros Hnd; unfold recalc_total.
  rewrite fold_total_step; [lia|].
  intros s Hs; apply find_unique_id; assumption.
Qed.

Lemma to_float32_small (x : Z) : 0 <= x < 2 ^ 24 -> to_float32 x = x.
Proof.
  intros Hx; unfold to_float32, round_sig24.
  rewrite Z.abs_eq by lia.
  replace (x <? 2 ^ 24) with true by (symmetry; apply Z.ltb_lt; lia).
  replace (x <? 0) with false by (symmetry; apply Z.ltb_ge; lia).
  unfold FLT_MAX; lia.
Qed.

(** Above 2^24 the stored total is rounded: 16777217 is stored as 16777216,
    16777219 as 16777220 (ties to even), and values past the float range are
    clamped to [FLT_MAX]. *)
Lemma to_float32_examples :
  to_float32 (2 ^ 24 + 1) = 2 ^ 24 /\ to_float32 (2 ^ 24 + 2) = 2 ^ 24 + 2 /\
  to_float32 (2 ^ 24 + 3) = 2 ^ 24 + 4 /\ to_float32 (2 ^ 128) = FLT_MAX.
Proof. vm_compute; repeat split. Qed.

(** C1: when the session ids are distinct (as [start_session] makes them),
    [update_total_time] sets the in-memory total to the sum over the sessions
    with a positive start of [max(0, end_cap - start - B)], [B] the sum of the
    clamped overlaps of the session's breaks with a positive start; every
    session contributes a non-negative amount and the total is non-negative.
    The property group's [total_time] receives that sum as a C [float]
    ([to_float32]), which is the sum itself while it is below 2^24 seconds. *)
Theorem update_total_time_sum (now : Z) (t : TimeData) (p : WTT_TimeData)
  (Hids : NoDup (map sid (sessions p))) :
  let w' := update_total_time now (mkWorld t (Some p)) in
  total_time (td w') = zsum (map (spec_contrib now p) (sessions p)) /\
  option_map pg_total_time (pg w') =
    Some (to_float32 (zsum (map (spec_contrib now p) (sessions p)))) /\
  (zsum (map (spec_contrib now p) (sessions p)) < 2 ^ 24 ->
   option_map pg_total_time (pg w') = Some (zsum (map (spec_contrib now p) (sessions p)))) /\
  (forall s, In s (sessions p) -> 0 <= spec_contrib now p s) /\
  0 <= total_time (td w').
Proof.
  assert (Hnn : 0 <= zsum (map (spec_contrib now p) (sessions p))).
  { apply zsum_nonneg, Forall_forall; intros z Hz.
    apply in_map_iff in Hz as (s & <- & _); apply spec_contrib_nonneg. }
  simpl; rewrite (recalc_total_spec now p Hids).
  split; [reflexivity|split; [reflexivity|split; [|split]]].
  - intros Hlt; rewrite to_float32_small by lia; reflexivity.
  - intros s _; apply spec_contrib_nonneg.
  - exact Hnn.
Qed.

(** Two sessions: #1 closed (100..400, a break 150..200) and #2 open since 500
    with a break open since 450, at time 1000. *)
Definition pg_two_sessions : WTT_TimeData :=
  mkPG DATA_VERSION 0 0 0 "scene.blend"
    [mkSession 1 100 400 ""; mkSession 2 500 0 ""] 1 450 true
    [mkBreak 1 1 150 200 "inactivity" ""; mkBreak 2 2 450 0 "inactivity" ""] 1.

Lemma pg_two_sessions_ids : NoDup (map sid (sessions pg_two_sessions)).
Proof.
  simpl; constructor; [intros [H|[]]; discriminate|].
  constructor; [intros []|constructor].
Qed.

Lemma update_total_time_sum_witness :
  NoDup (map sid (sessions pg_two_sessions)) /\
  total_time (td (update_total_time 1000 (mkWorld td0 (Some pg_two_sessions)))) = 250.
Proof.
  split; [exact pg_two_sessions_ids|].
  destruct (update_total_time_sum 1000 td0 pg_two_sessions pg_two_sessions_ids)
    as [E _].
  rewrite E; vm_compute; reflexivity.
Defined.

(** *** [end_active_sessions] *)

Definition close_s (now : Z) (s : WTT_TimeSession) : WTT_TimeSession :=
  if is_open s then set_send now s else s.

(** An open break ([start > 0], [end <= 0]) of a session that is open in [ss]. *)
Definition ended_break (ss : list WTT_TimeSession) (b : WTT_BreakSession) : bool :=
  (0 <? bstart b) && (bend b <=? 0) &&
  existsb (fun s => is_open s && (bsession_id b =? sid s)) ss.

Definition close_b (now : Z) (ss : list WTT_TimeSession) (b : WTT_BreakSession)
  : WTT_BreakSession :=
  if ended_break ss b then set_bend now b else b.

Lemma end_loop_spec (now : Z) (ss : list WTT_TimeSession) (bs : list WTT_BreakSession) :
  0 < now ->
  end_loop now ss bs =
    (map (close_s now) ss, map (close_b now ss) bs, Z.of_nat (count_open ss)).
Proof.
  intros Hnow; assert (Hn : (now <=? 0) = false) by (apply Z.leb_gt; lia).
  revert bs; induction ss as [|s rest IH]; intros bs.
  - simpl; f_equal; f_equal; induction bs as [|b r IHb]; simpl; [reflexivity|].
    rewrite <- IHb; unfold close_b, ended_break; simpl; rewrite andb_false_r; reflexivity.
  - unfold count_open; simpl; unfold close_s at 1, is_open at 1 2.
    destruct (send s <=? 0) eqn:Es.
    + rewrite IH; simpl; f_equal;
        [f_equal | unfold count_open;
                   change (Z.pos (Pos.of_succ_nat ?n)) with (Z.of_nat (S n)); lia].
      unfold close_breaks_of; rewrite map_map; apply map_ext; intros b.
      unfold close_b, ended_break, is_open; simpl; rewrite Es.
      destruct (bsession_id b =? sid s) eqn:E1, (0 <? bstart b) eqn:E2,
        (bend b <=? 0) eqn:E3; simpl; rewrite ?E1, ?E2, ?E3, ?Hn; simpl;
        rewrite ?andb_false_r; reflexivity.
    + rewrite IH; simpl; f_equal.
      f_equal; apply map_ext; intros b; unfold close_b, ended_break, is_open; simpl.
      rewrite Es; reflexivity.
Qed.

Lemma close_s_closed (now : Z) (s : WTT_TimeSession) :
  0 < send s \/ is_open s = true -> 0 < now -> 0 < send (close_s now s).
Proof.
  unfold close_s, is_open; intros H Hnow.
  destruct (send s <=? 0) eqn:E; simpl; [lia|].
  apply Z.leb_gt in E; lia.
Qed.

Lemma close_s_all_closed (now : Z) (ss : list WTT_TimeSession) :
  0 < now -> forall s, In s (map (close_s now) ss) -> 0 < send s.
Proof.
  intros Hnow s Hs; apply in_map_iff in Hs as (s0 & <- & _).
  apply close_s_closed; [|exact Hnow].
  unfold is_open; destruct (send s0 <=? 0) eqn:E; [right; reflexivity|].
  left; apply Z.leb_gt in E; exact E.
Qed.

Lemma close_b_no_open (now : Z) (ss : list WTT_TimeSession) (b : WTT_BreakSession) :
  0 < now ->
  (exists s, In s ss /\ is_open s = true /\ bsession_id (close_b now ss b) = sid s) ->
  ~ (0 < bstart (close_b now ss b) /\ bend (close_b now ss b) <= 0).
Proof.
  intros Hnow (s & Hin & Ho & Hid) [Hs He]; revert Hid Hs He.
  unfold close_b; destruct (ended_break ss b) eqn:Eb; simpl; [lia|].
  intros Hid Hs He.
  unfold ended_break in Eb.
  assert (Hx : existsb (fun s0 => is_open s0 && (bsession_id b =? sid s0)) ss = true).
  { apply existsb_exists; exists s; split; [exact Hin|].
    rewrite Ho, Hid, Z.eqb_refl; reflexivity. }
  rewrite Hx, andb_true_r in Eb.
  apply andb_false_iff in Eb as [E|E]; [apply Z.ltb_ge in E | apply Z.leb_gt in E]; lia.
Qed.

Lemma end_active_sessions_pg_spec (now : Z) (t : TimeData) (p : WTT_TimeData) :
  0 < now ->
  let '(t', p', c) := end_active_sessions_pg now t p in
  c = Z.of_nat (count_open (sessions p)) /\
  sessions p' = map (close_s now) (sessions p) /\
  break_sessions p' = map (close_b now (sessions p)) (break_sessions p) /\
  last_activity_time p' = last_activity_time p /\
  (c = 0 -> active_session_index p' = active_session_index p /\
            is_on_break p' = is_on_break p /\
            active_break_index p' = active_break_index p /\ t' = t) /\
  (c <> 0 -> active_session_index p' = -1 /\ is_on_break p' = false /\
             active_break_index p' = -1 /\ pg_total_time p' = to_float32 (recalc_total now p') /\
             total_time t' = recalc_total now p').
Proof.
  intros Hnow; unfold end_active_sessions_pg; rewrite (end_loop_spec now _ _ Hnow).
  destruct (Z.of_nat (count_open (sessions p)) =? 0) eqn:E.
  - apply Z.eqb_eq in E; rewrite E; simpl; repeat split; try reflexivity; lia.
  - apply Z.eqb_neq in E; simpl; repeat split; try reflexivity; congruence.
Qed.

(** C3: with a positive clock, [end_active_sessions] sets [end := now] on every
    session with [end <= 0] and on every open break ([start > 0], [end <= 0])
    of such a session; it returns the number of sessions it ended; when that
    number is non-zero it resets [active_session_index], [is_on_break],
    [active_break_index] and recomputes the total (the in-memory one exactly,
    the property group's as a C [float], [to_float32]); afterwards no session
    and no break of an ended session is open. *)
Theorem end_active_sessions_closes (now : Z) (t : TimeData) (p : WTT_TimeData)
  (Hnow : 0 < now) :
  let r := end_active_sessions now (mkWorld t (Some p)) in
  exists p', pg (fst r) = Some p' /\
  snd r = Z.of_nat (count_open (sessions p)) /\
  sessions p' = map (close_s now) (sessions p) /\
  break_sessions p' = map (close_b now (sessions p)) (break_sessions p) /\
  (snd r <> 0 ->
     active_session_index p' = -1 /\ is_on_break p' = false /\
     active_break_index p' = -1 /\ pg_total_time p' = to_float32 (recalc_total now p') /\
     total_time (td (fst r)) = recalc_total now p') /\
  (forall s, In s (sessions p') -> 0 < send s) /\
  (forall b, In b (break_sessions p') ->
     (exists s, In s (sessions p) /\ is_open s = true /\ bsession_id b = sid s) ->
     ~ (0 < bstart b /\ bend b <= 0)).
Proof.
  unfold end_active_sessions; cbn [pg td].
  pose proof (end_active_sessions_pg_spec now t p Hnow) as H.
  destruct (end_active_sessions_pg now t p) as [[t' p'] c].
  destruct H as (Hc & Hs & Hb & _ & _ & Hne).
  exists p'; simpl.
  refine (conj eq_refl (conj Hc (conj Hs (conj Hb (conj Hne (conj _ _)))))).
  - intros s Hin; rewrite Hs in Hin; exact (close_s_all_closed now _ Hnow s Hin).
  - intros b Hin Hex; rewrite Hb in Hin; apply in_map_iff in Hin as (b0 & <- & _).
    apply close_b_no_open; assumption.
Qed.

Lemma end_active_sessions_closes_witness :
  0 < 1000 /\
  option_map (fun p => (sessions p, break_sessions p))
    (pg (fst (end_active_sessions 1000 (mkWorld td0 (Some pg_two_sessions))))) =
  Some ([mkSession 1 100 400 ""; mkSession 2 500 1000 ""],
        [mkBreak 1 1 150 200 "inactivity" ""; mkBreak 2 2 450 1000 "inactivity" ""]).
Proof.
  assert (H : 0 < 1000) by lia; split; [exact H|].
  destruct (end_active_sessions_closes 1000 td0 pg_two_sessions H)
    as (p' & Hp & _ & Hs & Hb & _).
  rewrite Hp; cbn [option_map]; rewrite Hs, Hb; vm_compute; reflexivity.
Defined.

(** *** [start_session] and [switch_session] *)

Lemma count_open_closed (ss : list WTT_TimeSession) :
  (forall s, In s ss -> 0 < send s) -> count_open ss = 0%nat.
Proof.
  unfold count_open; induction ss as [|s r IH]; intros H; simpl; [reflexivity|].
  unfold is_open at 1.
  replace (send s <=? 0) with false by (symmetry; apply Z.leb_gt, H; left; reflexivity).
  apply IH; intros; apply H; right; assumption.
Qed.

Lemma close_s_id (now : Z) (ss : list WTT_TimeSession) :
  (forall s, In s ss -> 0 < send s) -> map (close_s now) ss = ss.
Proof.
  induction ss as [|s r IH]; intros H; simpl; [reflexivity|].
  rewrite IH by (intros; apply H; right; assumption).
  unfold close_s, is_open.
  replace (send s <=? 0) with false by (symmetry; apply Z.leb_gt, H; left; reflexivity).
  reflexivity.
Qed.

Lemma count_open_app (l1 l2 : list WTT_TimeSession) :
  count_open (l1 ++ l2) = (count_open l1 + count_open l2)%nat.
Proof. unfold count_open; rewrite filter_app, length_app; reflexivity. Qed.

Lemma start_session_pg_spec (now : Z) (t : TimeData) (p : WTT_TimeData) :
  0 < now ->
  let '(t', p', r) := start_session_pg now t p in
  r = Z.of_nat (List.length (sessions p) + 1) /\
  sessions p' = map (close_s now) (sessions p) ++ [mkSession r now 0 ""] /\
  break_sessions p' = map (close_b now (sessions p)) (break_sessions p) /\
  active_session_index p' = r - 1 /\
  is_on_break p' = false /\ active_break_index p' = -1 /\
  last_activity_time p' = now /\
  pg_total_time p' = to_float32 (recalc_total now p') /\ total_time t' = recalc_total now p'.
Proof.
  intros Hnow; unfold start_session_pg.
  pose proof (end_active_sessions_pg_spec now t p Hnow) as H.
  destruct (end_active_sessions_pg now t p) as [[t1 p1] c].
  destruct H as (_ & Hs & Hb & _).
  simpl; rewrite Hs, Hb, length_map; repeat split.
Qed.

(** C4: with a positive clock, [switch_session] returns [True] and leaves
    exactly one open session: the previous sessions, all ended, followed by a
    new one with [start = now], [end = 0], an empty comment and the new length
    of the collection as id; [active_session_index] points at it,
    [is_on_break] is [False] and [active_break_index] is [-1]. *)
Theorem switch_session_one_open (now : Z) (t : TimeData) (p : WTT_TimeData)
  (Hnow : 0 < now) :
  let r := switch_session now (mkWorld t (Some p)) in
  snd r = true /\
  exists p' pre,
    pg (fst r) = Some p' /\
    pre = map (close_s now) (sessions p) /\
    sessions p' = pre ++ [mkSession (Z.of_nat (List.length pre + 1)) now 0 ""] /\
    (forall s, In s pre -> 0 < send s) /\
    count_open (sessions p') = 1%nat /\
    Z.of_nat (List.length (sessions p')) = Z.of_nat (List.length pre + 1) /\
    active_session_index p' = Z.of_nat (List.length pre) /\
    nth_error (sessions p') (Z.to_nat (active_session_index p')) =
      Some (mkSession (Z.of_nat (List.length pre + 1)) now 0 "") /\
    is_on_break p' = false /\ active_break_index p' = -1.
Proof.
  unfold switch_session, end_active_sessions; cbn [pg td].
  pose proof (end_active_sessions_pg_spec now t p Hnow) as H1.
  destruct (end_active_sessions_pg now t p) as [[t1 p1] c].
  destruct H1 as (_ & Hs1 & _).
  unfold start_session; cbn [pg td].
  pose proof (start_session_pg_spec now t1 p1 Hnow) as H2.
  destruct (start_session_pg now t1 p1) as [[t2 p2] r].
  destruct H2 as (Hr & Hs2 & _ & Hidx & Hob & Hbi & _).
  assert (Hcl : forall s, In s (sessions p1) -> 0 < send s)
    by (rewrite Hs1; apply close_s_all_closed; exact Hnow).
  rewrite (close_s_id now _ Hcl) in Hs2.
  split; [reflexivity|].
  eexists; exists (sessions p1); simpl.
  split; [reflexivity|]; split; [exact Hs1|].
  unfold _sync_to_pg, set_pg_total; cbn [sessions active_session_index is_on_break
                                         active_break_index].
  rewrite Hs2, <- Hr.
  split; [reflexivity|]; split; [exact Hcl|].
  split; [rewrite count_open_app, (count_open_closed _ Hcl); reflexivity|].
  split; [rewrite length_app; simpl; rewrite Hr; reflexivity|].
  split; [rewrite Hidx, Hr; lia|].
  split; [|split; assumption].
  rewrite Hidx, Hr, Nat2Z.inj_add, Z.add_simpl_r, Nat2Z.id, nth_error_app2 by lia.
  rewrite Nat.sub_diag; reflexivity.
Qed.

Lemma switch_session_one_open_witness :
  0 < 1000 /\
  option_map (fun p => (sessions p, active_session_index p))
    (pg (fst (switch_session 1000 (mkWorld td0 (Some pg_two_sessions))))) =
  Some ([mkSession 1 100 400 ""; mkSession 2 500 1000 ""; mkSession 3 1000 0 ""], 2).
Proof.
  assert (H : 0 < 1000) by lia; split; [exact H|].
  destruct (switch_session_one_open 1000 td0 pg_two_sessions H)
    as (_ & p' & pre & Hp & Hpre & Hs & _ & _ & _ & Hidx & _).
  rewrite Hp; cbn [option_map]; rewrite Hidx, Hs, Hpre; vm_compute; reflexivity.
Defined.

(** *** The single-open-session invariant *)

Definition single_open (p : WTT_TimeData) : Prop :=
  (count_open (sessions p) <= 1)%nat /\
  (0 <= active_session_index p ->
   exists s, nth_error (sessions p) (Z.to_nat (active_session_index p)) = Some s /\
             send s <= 0).

Definition single_open_w (w : World) : Prop :=
  match pg w with Some p => single_open p | None => True end.

Definition sess_frame (p : WTT_TimeData) : list WTT_TimeSession * Z :=
  (sessions p, active_session_index p).

Lemma single_open_w_frame (w w' : World) :
  option_map sess_frame (pg w') = option_map sess_frame (pg w) ->
  single_open_w w -> single_open_w w'.
Proof.
  unfold single_open_w, single_open; destruct (pg w) as [p|], (pg w') as [p'|];
    simpl; intros E H; try discriminate; [|exact I].
  injection E as Es Ei; rewrite Es, Ei; exact H.
Qed.

Lemma frame_update_total_time (now : Z) (w : World) :
  option_map sess_frame (pg (update_total_time now w)) = option_map sess_frame (pg w).
Proof. destruct w as [t [p|]]; reflexivity. Qed.

Lemma frame_save_data (now : Z) (w : World) :
  option_map sess_frame (pg (save_data now w)) = option_map sess_frame (pg w).
Proof. destruct w as [t [p|]]; reflexivity. Qed.

Lemma frame_load_data (now : Z) (fp : string) (w : World) :
  option_map sess_frame (pg (load_data now fp w)) = option_map sess_frame (pg w).
Proof.
  destruct w as [t [p|]]; unfold load_data; simpl; [|reflexivity].
  destruct (last_activity_time p <=? 0), (String.eqb _ EmptyString); reflexivity.
Qed.

Lemma frame_save_handler (now : Z) (fp : string) (w : World) :
  option_map sess_frame (pg (save_handler now fp w)) = option_map sess_frame (pg w).
Proof.
  unfold save_handler; rewrite frame_save_data.
  destruct (String.eqb fp EmptyString); reflexivity.
Qed.

Lemma frame_break_check (now : Z) (pref : option Z) (p : WTT_TimeData) :
  sess_frame (break_check now pref p) = sess_frame p.
Proof.
  unfold break_check.
  destruct (last_activity_time p <=? 0); simpl;
    repeat match goal with |- context [if ?c then _ else _] => destruct c end;
    reflexivity.
Qed.

Lemma open_at_counts (ss : list WTT_TimeSession) (i : nat) (s : WTT_TimeSession) :
  nth_error ss i = Some s -> send s <= 0 -> (1 <= count_open ss)%nat.
Proof.
  unfold count_open; revert i; induction ss as [|x r IH]; intros [|i] E Hs;
    simpl in *; try discriminate.
  - injection E as ->; unfold is_open; replace (send s <=? 0) with true
      by (symmetry; apply Z.leb_le; exact Hs); simpl; lia.
  - specialize (IH i E Hs); destruct (is_open x); simpl; lia.
Qed.

Lemma start_session_pg_single_open (now : Z) (t : TimeData) (p : WTT_TimeData) :
  0 < now -> let '(_, p', _) := start_session_pg now t p in single_open p'.
Proof.
  intros Hnow; pose proof (start_session_pg_spec now t p Hnow) as H.
  destruct (start_session_pg now t p) as [[t' p'] r].
  destruct H as (Hr & Hs & _ & Hidx & _).
  pose proof (close_s_all_closed now (sessions p) Hnow) as Hcl.
  unfold single_open; rewrite Hs, Hidx, count_open_app, (count_open_closed _ Hcl).
  split; [unfold count_open; simpl; lia|].
  intros _; exists (mkSession r now 0 ""); split; [|simpl; lia].
  rewrite Hr, Nat2Z.inj_add, Z.add_simpl_r, Nat2Z.id, nth_error_app2
    by (rewrite length_map; lia).
  rewrite length_map, Nat.sub_diag; reflexivity.
Qed.

Lemma start_session_single_open (now : Z) (w : World) :
  0 < now -> single_open_w (fst (start_session now w)).
Proof.
  intros Hnow; destruct w as [t [p|]]; unfold start_session; simpl; [|exact I].
  pose proof (start_session_pg_single_open now t p Hnow) as H.
  destruct (start_session_pg now t p) as [[t' p'] r]; exact H.
Qed.

Lemma end_active_sessions_single_open (now : Z) (w : World) :
  0 < now -> single_open_w w -> single_open_w (fst (end_active_sessions now w)).
Proof.
  intros Hnow; destruct w as [t [p|]]; unfold end_active_sessions; simpl; [|auto].
  intros [Hc Hi].
  pose proof (end_active_sessions_pg_spec now t p Hnow) as H.
  destruct (end_active_sessions_pg now t p) as [[t' p'] c]; simpl.
  destruct H as (Hcnt & Hs & _ & _ & H0 & Hn0).
  pose proof (close_s_all_closed now (sessions p) Hnow) as Hcl.
  unfold single_open_w, single_open; simpl; rewrite Hs, (count_open_closed _ Hcl).
  split; [lia|].
  destruct (Z.eq_dec c 0) as [E|E].
  - destruct (H0 E) as (Hidx & _); rewrite Hidx; intros Hge.
    destruct (Hi Hge) as (s & Hnth & Hopen).
    pose proof (open_at_counts _ _ _ Hnth Hopen); lia.
  - destruct (Hn0 E) as (Hidx & _); rewrite Hidx; lia.
Qed.

Lemma nth_error_list_update_nth_other {A} (i j : nat) (f : A -> A) (l : list A) :
  j <> i -> nth_error (list_update_nth i f l) j = nth_error l j.
Proof.
  revert i j; induction l as [|x r IH]; intros [|i] [|j] Hne; simpl;
    try reflexivity; try lia.
  apply IH; lia.
Qed.

Lemma nth_error_list_update_nth {A} (i : nat) (f : A -> A) (l : list A) (x : A) :
  nth_error l i = Some x -> nth_error (list_update_nth i f l) i = Some (f x).
Proof.
  revert i; induction l as [|y r IH]; intros [|i] E; simpl in *; try discriminate.
  - injection E as ->; reflexivity.
  - apply IH, E.
Qed.

Lemma count_open_list_update_nth (i : nat) (f : WTT_TimeSession -> WTT_TimeSession)
  (l : list WTT_TimeSession) (x : WTT_TimeSession) :
  nth_error l i = Some x -> is_open (f x) = is_open x ->
  count_open (list_update_nth i f l) = count_open l.
Proof.
  unfold count_open; revert i; induction l as [|y r IH]; intros [|i] E Ho;
    simpl in *; try discriminate.
  - injection E as ->; rewrite Ho; destruct (is_open x); reflexivity.
  - destruct (is_open y); simpl; rewrite (IH i E Ho); reflexivity.
Qed.

Lemma reset_current_session_single_open (now : Z) (w : World) :
  single_open_w w -> single_open_w (fst (reset_current_session now w)).
Proof.
  destruct w as [t [p|]]; unfold reset_current_session; cbn [pg td]; [|auto].
  intros Hw.
  destruct ((active_session_index p <? 0) ||
            (Z.of_nat (List.length (sessions p)) <=? active_session_index p)) eqn:Eidx;
    [exact Hw|].
  destruct (nth_error (sessions p) (Z.to_nat (active_session_index p))) as [s|] eqn:En;
    [|exact Hw].
  cbn [fst]; eapply single_open_w_frame;
    [rewrite frame_save_data, frame_update_total_time; reflexivity|].
  apply orb_false_iff in Eidx as [E1 _]; apply Z.ltb_ge in E1.
  destruct Hw as [Hc Hi]; destruct (Hi E1) as (s' & En' & Hopen).
  rewrite En in En'; injection En' as <-.
  assert (Ho : is_open (set_sstart_send now 0 s) = is_open s).
  { unfold is_open; simpl; symmetry; apply Z.leb_le; exact Hopen. }
  unfold single_open_w, single_open; simpl.
  rewrite (count_open_list_update_nth _ _ _ _ En Ho); split; [exact Hc|].
  intros _; exists (set_sstart_send now 0 s); split; [|simpl; lia].
  apply nth_error_list_update_nth; exact En.
Qed.

Lemma step_single_open (w w' : World) :
  step w w' -> single_open_w w -> single_open_w w'.
Proof.
  intros Hs Hw; destruct Hs as
    [now w Hn|now w Hn|now w Hn|now w Hn|now w Hn|now fp w Hn|now fp w Hn|now fp pref w Hn].
  - apply start_session_single_open; exact Hn.
  - unfold switch_session.
    destruct (end_active_sessions now w) as [w1 c1].
    destruct (start_session now w1) as [w2 r2] eqn:E2; cbn [fst].
    eapply single_open_w_frame; [apply frame_save_data|].
    change w2 with (fst (w2, r2)); rewrite <- E2.
    apply start_session_single_open; exact Hn.
  - apply end_active_sessions_single_open; assumption.
  - destruct w as [t [p|]]; unfold reset; cbn [pg]; [|exact Hw].
    apply start_session_single_open; exact Hn.
  - apply reset_current_session_single_open; exact Hw.
  - unfold load_handler; destruct (data_loaded (td w)); [exact Hw|].
    apply start_session_single_open; exact Hn.
  - eapply single_open_w_frame; [apply frame_save_handler|exact Hw].
  - unfold update_time_callback.
    destruct (file_changed _ _).
    + eapply single_open_w_frame; [apply frame_save_data|].
      apply start_session_single_open; exact Hn.
    + eapply single_open_w_frame; [apply frame_update_total_time|].
      destruct w as [t [p|]]; [|exact Hw].
      eapply single_open_w_frame; [|exact Hw].
      simpl; f_equal; apply frame_break_check.
Qed.

(** C8: in every reachable state there is at most one session with
    [end <= 0], and a non-negative [active_session_index] indexes a session
    with [end <= 0]. *)
Theorem reachable_single_open (w : World) (p : WTT_TimeData)
  (Hreach : reachable w) (Hpg : pg w = Some p) :
  (count_open (sessions p) <= 1)%nat /\
  (0 <= active_session_index p ->
   exists s, nth_error (sessions p) (Z.to_nat (active_session_index p)) = Some s /\
             send s <= 0).
Proof.
  assert (H : single_open_w w).
  { clear Hpg; induction Hreach as [t|t p0 Hs Hi|w0 w1 _ IH Hst].
    - exact I.
    - unfold single_open_w, single_open; simpl; rewrite Hs.
      split; [unfold count_open; simpl; lia | intros; exfalso; lia].
    - exact (step_single_open w0 w1 Hst IH). }
  unfold single_open_w in H; rewrite Hpg in H; exact H.
Qed.

Definition pg_empty : WTT_TimeData :=
  mkPG DATA_VERSION 0 0 0 "" [] (-1) 0 false [] (-1).

(** A document opened at time 1000, then switched at time 2000. *)
Definition world_opened : World :=
  fst (start_session 1000 (mkWorld td0 (Some pg_empty))).

Definition world_switched : World := fst (switch_session 2000 world_opened).

Definition pg_of (w : World) : WTT_TimeData :=
  match pg w with Some p => p | None => pg_empty end.

Lemma reachable_single_open_witness :
  reachable world_switched /\ pg world_switched = Some (pg_of world_switched) /\
  (count_open (sessions (pg_of world_switched)) <= 1)%nat /\
  active_session_index (pg_of world_switched) = 1.
Proof.
  assert (Hr : reachable world_switched).
  { apply (reach_step world_opened world_switched).
    - apply (reach_step (mkWorld td0 (Some pg_empty)) world_opened).
      + apply reach_empty; [reflexivity|simpl; lia].
      + unfold world_opened; apply step_start_session; lia.
    - unfold world_switched; apply step_switch_session; lia. }
  assert (Hp : pg world_switched = Some (pg_of world_switched))
    by (vm_compute; reflexivity).
  split; [exact Hr|split; [exact Hp|split]].
  - exact (proj1 (reachable_single_open world_switched (pg_of world_switched) Hr Hp)).
  - vm_compute; reflexivity.
Defined.

(** *** [update_time_callback]: break creation and closing *)

(** An open session #1 since 500, last activity at 700, not on break. *)
Definition pg_idle : WTT_TimeData :=
  mkPG DATA_VERSION 0 0 0 "scene.blend" [mkSession 1 500 0 ""] 0 700 false [] (-1).

(** C2 (as stated, refuted): at time 1000 the idle time is exactly the
    threshold (300, no preference available), so it does not exceed it, yet
    the callback creates a break and sets [is_on_break]. *)
Lemma update_time_callback_break_at_threshold :
  1000 - last_activity_time pg_idle = break_threshold None /\
  option_map (fun p => (break_sessions p, is_on_break p))
    (pg (update_time_callback 1000 "" None (mkWorld td0 (Some pg_idle)))) =
  Some ([mkBreak 1 1 700 0 "inactivity" ""], true).
Proof. split; vm_compute; reflexivity. Qed.

Lemma break_check_spec (now : Z) (pref : option Z) (p : WTT_TimeData) :
  let la := if last_activity_time p <=? 0 then now else last_activity_time p in
  let idle := now - la in
  let q := break_check now pref p in
  sessions q = sessions p /\ active_session_index q = active_session_index p /\
  (if negb (is_on_break p) && (break_threshold pref <=? idle) then
     break_sessions q =
       break_sessions p ++
       [mkBreak (Z.of_nat (List.length (break_sessions p) + 1))
          (match get_current_session p with Some c => sid c | None => 0 end)
          (match get_current_session p with Some c => Z.max (sstart c) la | None => la end)
          0 "inactivity" ""] /\
     is_on_break q = true /\
     active_break_index q = Z.of_nat (List.length (break_sessions p)) /\
     last_activity_time q = la
   else if is_on_break p && (idle <? 1) then
     break_sessions q =
       (if (0 <=? active_break_index p) &&
           (active_break_index p <? Z.of_nat (List.length (break_sessions p)))
        then list_update_nth (Z.to_nat (active_break_index p)) (set_bend now)
               (break_sessions p)
        else break_sessions p) /\
     is_on_break q = false /\ active_break_index q = -1 /\ last_activity_time q = now
   else
     break_sessions q = break_sessions p /\ is_on_break q = is_on_break p /\
     active_break_index q = active_break_index p /\ last_activity_time q = la).
Proof.
  unfold break_check.
  assert (Hsc : forall la, (if 0 <? la then la else now - (now - la)) = la)
    by (intros la; destruct (0 <? la); lia).
  destruct (last_activity_time p <=? 0); cbn zeta;
    cbn [last_activity_time is_on_break break_sessions active_break_index
         sessions active_session_index set_pg_last_activity];
    rewrite Hsc;
    (destruct (negb (is_on_break p) && _) eqn:E1;
     [| destruct (is_on_break p && _) eqn:E2]);
    simpl; rewrite ?Nat2Z.inj_add, ?Z.add_simpl_r; repeat split.
Qed.

(** C2 (amended): when a property group exists and the file path has not
    changed, one timer update first sets [last_activity_time] to the clock if
    it was [<= 0]; with [idle = now - last_activity_time] and
    [threshold = max(30, preference or 300)], it appends a break
    ([id] = new count, the current session's id or 0, start clamped to the
    current session's start, [end = 0], reason ["inactivity"]) and sets
    [is_on_break] iff not on break and [idle >= threshold]; else, when on
    break and [idle < 1], it sets [end = now] on the break at
    [active_break_index] if that index is in range, sets
    [last_activity_time = now], clears [is_on_break] and resets
    [active_break_index] to -1; otherwise the break state is unchanged.
    Sessions are untouched and the total is recomputed; the property group
    stores it as a C [float] ([to_float32]). *)
Theorem update_time_callback_break_rules (now : Z) (filepath : string)
  (pref : option Z) (t : TimeData) (p : WTT_TimeData)
  (Hfile : file_changed filepath t = false) :
  let la := if last_activity_time p <=? 0 then now else last_activity_time p in
  let idle := now - la in
  exists q,
    pg (update_time_callback now filepath pref (mkWorld t (Some p))) = Some q /\
    sessions q = sessions p /\ active_session_index q = active_session_index p /\
    pg_total_time q = to_float32 (recalc_total now q) /\
    (if negb (is_on_break p) && (break_threshold pref <=? idle) then
       break_sessions q =
         break_sessions p ++
         [mkBreak (Z.of_nat (List.length (break_sessions p) + 1))
            (match get_current_session p with Some c => sid c | None => 0 end)
            (match get_current_session p with Some c => Z.max (sstart c) la | None => la end)
            0 "inactivity" ""] /\
       is_on_break q = true /\
       active_break_index q = Z.of_nat (List.length (break_sessions p)) /\
       last_activity_time q = la
     else if is_on_break p && (idle <? 1) then
       break_sessions q =
         (if (0 <=? active_break_index p) &&
             (active_break_index p <? Z.of_nat (List.length (break_sessions p)))
          then list_update_nth (Z.to_nat (active_break_index p)) (set_bend now)
                 (break_sessions p)
          else break_sessions p) /\
       is_on_break q = false /\ active_break_index q = -1 /\ last_activity_time q = now
     else
       break_sessions q = break_sessions p /\ is_on_break q = is_on_break p /\
       active_break_index q = active_break_index p /\ last_activity_time q = la).
Proof.
  intros la idle.
  unfold update_time_callback; cbn [pg td].
  change (file_changed filepath (td (update_total_time now
            (mkWorld t (Some (break_check now pref p))))))
    with (file_changed filepath t).
  rewrite Hfile.
  exists (set_pg_total (recalc_total now (break_check now pref p))
            (break_check now pref p)).
  split; [reflexivity|].
  pose proof (break_check_spec now pref p) as H; cbn zeta in H.
  destruct H as (Hs & Hi & Hrest).
  split; [exact Hs|]; split; [exact Hi|]; split; [reflexivity|].
  exact Hrest.
Qed.

Lemma update_time_callback_break_rules_witness :
  file_changed "" td0 = false /\
  option_map break_sessions
    (pg (update_time_callback 1000 "" None (mkWorld td0 (Some pg_idle)))) =
  Some [mkBreak 1 1 (Z.max 500 700) 0 "inactivity" ""].
Proof.
  assert (Hf : file_changed "" td0 = false) by reflexivity.
  split; [exact Hf|].
  destruct (update_time_callback_break_rules 1000 "" None td0 pg_idle Hf)
    as (q & Hq & _ & _ & _ & Hb).
  rewrite Hq; cbn [option_map].
  cbn in Hb; destruct Hb as (Hb & _); rewrite Hb; reflexivity.
Defined.

(** *** Session ids in reachable states

    [start_session] numbers sessions [1, 2, ...] in order, and nothing else
    renumbers them; so the precondition of [update_total_time_sum] holds in
    every reachable state. *)

Definition ids_seq_w (w : World) : Prop :=
  match pg w with
  | Some p => map sid (sessions p) = map Z.of_nat (seq 1 (List.length (sessions p)))
  | None => True
  end.

Lemma ids_seq_w_frame (w w' : World) :
  option_map sess_frame (pg w') = option_map sess_frame (pg w) ->
  ids_seq_w w -> ids_seq_w w'.
Proof.
  unfold ids_seq_w; destruct (pg w) as [p|], (pg w') as [p'|];
    simpl; intros E H; try discriminate; [|exact I].
  injection E as Es _; rewrite Es; exact H.
Qed.

Lemma map_sid_close_s (now : Z) (ss : list WTT_TimeSession) :
  map sid (map (close_s now) ss) = map sid ss.
Proof.
  rewrite map_map; apply map_ext; intros s; unfold close_s; destruct (is_open s); reflexivity.
Qed.

Lemma start_session_ids (now : Z) (w : World) :
  0 < now -> ids_seq_w w -> ids_seq_w (fst (start_session now w)).
Proof.
  intros Hnow; destruct w as [t [p|]]; unfold start_session, ids_seq_w; simpl; [|auto].
  intros Hids.
  pose proof (start_session_pg_spec now t p Hnow) as H.
  destruct (start_session_pg now t p) as [[t' p'] r]; simpl.
  destruct H as (Hr & Hs & _).
  rewrite Hs, map_app, map_sid_close_s, Hids, length_app, length_map; simpl.
  rewrite Nat.add_1_r, seq_S, map_app, Hr; simpl.
  rewrite Nat.add_1_r; reflexivity.
Qed.

Lemma end_active_sessions_ids (now : Z) (w : World) :
  0 < now -> ids_seq_w w -> ids_seq_w (fst (end_active_sessions now w)).
Proof.
  intros Hnow; destruct w as [t [p|]]; unfold end_active_sessions, ids_seq_w; simpl; [|auto].
  intros Hids.
  pose proof (end_active_sessions_pg_spec now t p Hnow) as H.
  destruct (end_active_sessions_pg now t p) as [[t' p'] c]; simpl.
  destruct H as (_ & Hs & _).
  rewrite Hs, map_sid_close_s, length_map; exact Hids.
Qed.

Lemma map_sid_list_update_nth (i : nat) (f : WTT_TimeSession -> WTT_TimeSession)
  (l : list WTT_TimeSession) :
  (forall x, sid (f x) = sid x) -> map sid (list_update_nth i f l) = map sid l.
Proof.
  intros Hf; revert i; induction l as [|x r IH]; intros [|i]; simpl;
    rewrite ?Hf, ?IH; reflexivity.
Qed.

Lemma length_list_update_nth {A} (i : nat) (f : A -> A) (l : list A) :
  List.length (list_update_nth i f l) = List.length l.
Proof.
  revert i; induction l as [|x r IH]; intros [|i]; simpl; rewrite ?IH; reflexivity.
Qed.

Lemma reset_current_session_ids (now : Z) (w : World) :
  ids_seq_w w -> ids_seq_w (fst (reset_current_session now w)).
Proof.
  destruct w as [t [p|]]; unfold reset_current_session; cbn [pg td]; [|auto].
  intros Hw.
  destruct (_ || _); [exact Hw|].
  destruct (nth_error (sessions p) _) as [s|]; [|exact Hw].
  cbn [fst]; eapply ids_seq_w_frame;
    [rewrite frame_save_data, frame_update_total_time; reflexivity|].
  unfold ids_seq_w in *; simpl.
  rewrite map_sid_list_update_nth, length_list_update_nth by reflexivity; exact Hw.
Qed.

Lemma step_ids (w w' : World) : step w w' -> ids_seq_w w -> ids_seq_w w'.
Proof.
  intros Hs Hw; destruct Hs as
    [now w Hn|now w Hn|now w Hn|now w Hn|now w Hn|now fp w Hn|now fp w Hn|now fp pref w Hn].
  - apply start_session_ids; assumption.
  - unfold switch_session.
    pose proof (end_active_sessions_ids now w Hn Hw) as H1.
    destruct (end_active_sessions now w) as [w1 c1].
    pose proof (start_session_ids now w1 Hn H1) as H2.
    destruct (start_session now w1) as [w2 r2]; cbn [fst] in *.
    eapply ids_seq_w_frame; [apply frame_save_data|exact H2].
  - apply end_active_sessions_ids; assumption.
  - destruct w as [t [p|]]; unfold reset; cbn [pg]; [|exact Hw].
    apply start_session_ids; [exact Hn|reflexivity].
  - apply reset_current_session_ids; exact Hw.
  - unfold load_handler; destruct (data_loaded (td w)); [exact Hw|].
    apply start_session_ids; [exact Hn|].
    eapply ids_seq_w_frame; [|exact Hw].
    simpl; apply frame_load_data.
  - eapply ids_seq_w_frame; [apply frame_save_handler|exact Hw].
  - assert (H2 : ids_seq_w (update_total_time now
              (match pg w with
               | Some p => mkWorld (td w) (Some (break_check now pref p))
               | None => w
               end))).
    { eapply ids_seq_w_frame; [apply frame_update_total_time|].
      destruct w as [t [p|]]; [|exact Hw].
      eapply ids_seq_w_frame; [|exact Hw].
      simpl; f_equal; apply frame_break_check. }
    unfold update_time_callback.
    destruct (file_changed _ _); [|exact H2].
    eapply ids_seq_w_frame; [apply frame_save_data|].
    apply start_session_ids; [exact Hn|].
    apply end_active_sessions_ids; assumption.
Qed.

Lemma NoDup_map_inj {A B} (f : A -> B) (l : list A) :
  (forall x y, f x = f y -> x = y) -> NoDup l -> NoDup (map f l).
Proof.
  intros Hf; induction 1 as [|x r Hx Hr IH]; simpl; constructor; [|exact IH].
  intros Hin; apply in_map_iff in Hin as (y & Hy & Hyr).
  apply Hf in Hy; subst; contradiction.
Qed.

(** In every reachable state the session ids are [1 .. n], hence distinct. *)
Lemma reachable_session_ids_distinct (w : World) (p : WTT_TimeData) :
  reachable w -> pg w = Some p -> NoDup (map sid (sessions p)).
Proof.
  intros Hr Hp.
  assert (H : ids_seq_w w).
  { clear Hp; induction Hr as [t|t p0 Hs _|w0 w1 _ IH Hst].
    - exact I.
    - unfold ids_seq_w; simpl; rewrite Hs; reflexivity.
    - exact (step_ids w0 w1 Hst IH). }
  unfold ids_seq_w in H; rewrite Hp in H; rewrite H.
  apply NoDup_map_inj; [intros x y; apply Nat2Z.inj|apply seq_NoDup].
Qed.

(** *** [format_hours_minutes] and the edges of [format_time] *)

Lemma string_append_assoc (a b c : string) :
  String.append (String.append a b) c = String.append a (String.append b c).
Proof. induction a as [|ch a IH]; simpl; [reflexivity|rewrite IH; reflexivity]. Qed.

(** [format_time] is [format_hours_minutes] followed by [":SS"], [SS] the
    integer part of the seconds modulo 60, for every input (also negative
    ones): the status bar's [HH:MM] is a prefix of the panel's [HH:MM:SS]. *)
Theorem format_time_extends_hours_minutes (seconds : Q) :
  format_time seconds =
  String.append (format_hours_minutes seconds)
    (String.append ":" (format_02d (py_int seconds mod 60))).
Proof.
  unfold format_time, format_hours_minutes.
  rewrite (Z.mod_mod_divide (py_int seconds) 3600 60) by (exists 60; reflexivity).
  rewrite !string_append_assoc; reflexivity.
Qed.

Lemma Qfloor_unit (y : Q) : (0 <= y)%Q -> (y < 1)%Q -> Qfloor y = 0.
Proof.
  intros H0 H1.
  pose proof (Qfloor_resp_le 0 y H0) as Hl; change (Qfloor 0) with 0 in Hl.
  pose proof (Qfloor_le y) as Hu.
  assert (Hlt : Qfloor y < 1) by (rewrite Zlt_Qlt; exact (Qle_lt_trans _ _ _ Hu H1)).
  lia.
Qed.

Lemma py_int_small (x : Q) : (-1 < x)%Q -> (x < 1)%Q -> py_int x = 0.
Proof.
  intros H0 H1; unfold py_int; destruct (Qle_bool 0 x) eqn:E.
  - apply Qle_bool_iff in E; apply Qfloor_unit; assumption.
  - assert (Hn : ~ (0 <= x)%Q) by (intros Hx; apply Qle_bool_iff in Hx; congruence).
    rewrite Qfloor_unit; [reflexivity|lra|lra].
Qed.

Lemma py_int_le_neg1 (x : Q) : (x <= -1)%Q -> py_int x <= -1.
Proof.
  intros H; unfold py_int; destruct (Qle_bool 0 x) eqn:E.
  - apply Qle_bool_iff in E; lra.
  - pose proof (Qfloor_resp_le 1 (- x)) as Hf; change (Qfloor 1) with 1 in Hf.
    assert (H1 : (1 <= - x)%Q) by (clear Hf E; lra); specialize (Hf H1); lia.
Qed.

(** A duration strictly between -1 and 1 second is shown as ["00:00:00"]
    and ["00:00"]: the fraction is truncated toward zero. *)
Theorem format_time_near_zero (x : Q) (Hlo : (-1 < x)%Q) (Hhi : (x < 1)%Q) :
  format_time x = "00:00:00"%string /\ format_hours_minutes x = "00:00"%string.
Proof.
  unfold format_time, format_hours_minutes; rewrite (py_int_small x Hlo Hhi).
  split; vm_compute; reflexivity.
Qed.

Lemma format_02d_neg (n : Z) : n < 0 -> format_02d n = String "-"%char (dec_string (- n)).
Proof.
  intros H; unfold format_02d; replace (n <? 0) with true by (symmetry; apply Z.ltb_lt; exact H).
  reflexivity.
Qed.

(** A duration of -1 second or less (a clock set back) is shown with a
    leading minus sign by both formatters. *)
Theorem format_time_negative (x : Q) (Hneg : (x <= -1)%Q) :
  (exists r, format_time x = String "-"%char r) /\
  (exists r, format_hours_minutes x = String "-"%char r).
Proof.
  pose proof (py_int_le_neg1 x Hneg) as Hp.
  assert (Hh : py_int x / 3600 < 0) by (apply Z.div_lt_upper_bound; lia).
  unfold format_time, format_hours_minutes; rewrite (format_02d_neg _ Hh).
  split; eexists; reflexivity.
Qed.

Lemma format_time_near_zero_witness :
  (-1 < 1 # 2)%Q /\ (1 # 2 < 1)%Q /\ format_time (1 # 2) = "00:00:00"%string.
Proof.
  assert (H1 : (-1 < 1 # 2)%Q) by (vm_compute; reflexivity).
  assert (H2 : (1 # 2 < 1)%Q) by (vm_compute; reflexivity).
  split; [exact H1|split; [exact H2|]].
  exact (proj1 (format_time_near_zero (1 # 2) H1 H2)).
Defined.

Lemma format_time_negative_witness :
  (-3725 # 1 <= -1)%Q /\ format_time (-3725 # 1) = "-2:57:55"%string.
Proof.
  assert (H : (-3725 # 1 <= -1)%Q) by (vm_compute; discriminate).
  split; [exact H|].
  destruct (format_time_negative (-3725 # 1) H) as [[r Hr] _].
  rewrite Hr; vm_compute in Hr; rewrite <- Hr; reflexivity.
Defined.

(** *** [get_session_work_seconds_by_id] and the export report *)

Lemma find_sid_in (ss : list WTT_TimeSession) (i : Z) :
  ~ In i (map sid ss) -> find (fun x => sid x =? i) ss = None.
Proof.
  intros Hn; destruct (find (fun x => sid x =? i) ss) as [s|] eqn:E; [|reflexivity].
  apply find_some in E as [Hin Heq]; apply Z.eqb_eq in Heq.
  exfalso; apply Hn; rewrite <- Heq; apply in_map; exact Hin.
Qed.

Lemma sum_breaks_nonneg (p : WTT_TimeData) (i ec : Z) : 0 <= _sum_breaks_for_session p i ec.
Proof. unfold _sum_breaks_for_session; destruct (find _ _); lia. Qed.

(** The work time of one session is never negative and never exceeds the
    length of its interval ([end], or the clock for an open session, minus
    [start]); it is 0 for an id that no session has, and when there is no
    scene. *)
Theorem get_session_work_seconds_by_id_bounds (now : Z) (w : World) (session_id : Z) :
  0 <= get_session_work_seconds_by_id now w session_id /\
  (forall p s, pg w = Some p ->
     find (fun x => sid x =? session_id) (sessions p) = Some s ->
     get_session_work_seconds_by_id now w session_id <=
       Z.max 0 (session_end_cap now s - sstart s)) /\
  ((forall p, pg w = Some p -> ~ In session_id (map sid (sessions p))) ->
     get_session_work_seconds_by_id now w session_id = 0).
Proof.
  unfold get_session_work_seconds_by_id, session_end_cap.
  destruct (pg w) as [p|].
  - split; [destruct (find _ _); lia|split].
    + intros p' s Hp Hf; injection Hp as <-; rewrite Hf.
      pose proof (sum_breaks_nonneg p session_id (if send s <=? 0 then now else send s)); lia.
    + intros Hn; rewrite (find_sid_in _ _ (Hn p eq_refl)); reflexivity.
  - split; [lia|split; [intros p' s Hp; discriminate|reflexivity]].
Qed.

Lemma work_seconds_known (now : Z) (t : TimeData) (p : WTT_TimeData) (s : WTT_TimeSession) :
  find (fun x => sid x =? sid s) (sessions p) = Some s -> 0 < sstart s ->
  get_session_work_seconds_by_id now (mkWorld t (Some p)) (sid s) = spec_contrib now p s.
Proof.
  intros Hf Hs; unfold get_session_work_seconds_by_id; cbn [pg]; rewrite Hf.
  change (if send s <=? 0 then now else send s) with (session_end_cap now s).
  rewrite (sum_breaks_for_known_session now p s Hf).
  unfold spec_contrib; replace (0 <? sstart s) with true by (symmetry; apply Z.ltb_lt; exact Hs).
  pose proof (spec_breaks_nonneg now p s); lia.
Qed.

Lemma zsum_contrib_filter (now : Z) (p : WTT_TimeData) (l : list WTT_TimeSession) :
  zsum (map (spec_contrib now p) l) =
  zsum (map (spec_contrib now p) (filter (fun s => 0 <? sstart s) l)).
Proof.
  induction l as [|s r IH]; [reflexivity|].
  unfold zsum in *; simpl; destruct (0 <? sstart s) eqn:E; simpl; rewrite IH; [reflexivity|].
  unfold spec_contrib at 1; rewrite E; lia.
Qed.

Lemma recalc_total_work_seconds (now : Z) (t : TimeData) (p : WTT_TimeData) :
  NoDup (map sid (sessions p)) ->
  recalc_total now p =
  zsum (map (fun s => get_session_work_seconds_by_id now (mkWorld t (Some p)) (sid s))
          (filter (fun s => 0 <? sstart s) (sessions p))).
Proof.
  intros Hnd; rewrite (recalc_total_spec now p Hnd), zsum_contrib_filter.
  f_equal; apply map_ext_in; intros s Hs.
  apply filter_In in Hs as [Hin Hpos]; apply Z.ltb_lt in Hpos.
  symmetry; apply work_seconds_known; [apply find_unique_id; assumption|exact Hpos].
Qed.

(** When the session ids are distinct, the total that [update_total_time]
    computes is the sum, over the sessions with a positive start, of
    [get_session_work_seconds_by_id] at the same instant. *)
Theorem update_total_time_by_session (now : Z) (t : TimeData) (p : WTT_TimeData)
  (Hids : NoDup (map sid (sessions p))) :
  total_time (td (update_total_time now (mkWorld t (Some p)))) =
  zsum (map (fun s => get_session_work_seconds_by_id now (mkWorld t (Some p)) (sid s))
          (filter (fun s => 0 <? sstart s) (sessions p))).
Proof. exact (recalc_total_work_seconds now t p Hids). Qed.

Lemma update_total_time_by_session_witness :
  NoDup (map sid (sessions pg_two_sessions)) /\
  map (fun s => get_session_work_seconds_by_id 1000 (mkWorld td0 (Some pg_two_sessions)) (sid s))
    (sessions pg_two_sessions) = [250; 0] /\
  total_time (td (update_total_time 1000 (mkWorld td0 (Some pg_two_sessions)))) = 250.
Proof.
  split; [exact pg_two_sessions_ids|split; [vm_compute; reflexivity|]].
  rewrite (update_total_time_by_session 1000 td0 pg_two_sessions pg_two_sessions_ids).
  vm_compute; reflexivity.
Defined.

(** *** Invariants of every session in reachable states *)

Section AllSessions.

Variable Inv : WTT_TimeSession -> Prop.
Hypothesis Inv_close : forall now s, 0 < now -> Inv s -> Inv (close_s now s).
Hypothesis Inv_new : forall now n, 0 < now -> Inv (mkSession n now 0 "").
Hypothesis Inv_reset : forall now s, 0 < now -> Inv s -> Inv (set_sstart_send now 0 s).

Definition all_sessions_w (w : World) : Prop :=
  match pg w with Some p => Forall Inv (sessions p) | None => True end.

Lemma all_sessions_w_frame (w w' : World) :
  option_map sess_frame (pg w') = option_map sess_frame (pg w) ->
  all_sessions_w w -> all_sessions_w w'.
Proof.
  unfold all_sessions_w; destruct (pg w) as [p|], (pg w') as [p'|];
    simpl; intros E H; try discriminate; [|exact I].
  injection E as Es _; rewrite Es; exact H.
Qed.

Lemma Forall_close_s (now : Z) (ss : list WTT_TimeSession) :
  0 < now -> Forall Inv ss -> Forall Inv (map (close_s now) ss).
Proof.
  intros Hn H; apply Forall_map; eapply Forall_impl; [|exact H].
  intros s; apply Inv_close; exact Hn.
Qed.

Lemma start_session_all (now : Z) (w : World) :
  0 < now -> all_sessions_w w -> all_sessions_w (fst (start_session now w)).
Proof.
  intros Hnow; destruct w as [t [p|]]; unfold start_session, all_sessions_w; simpl; [|auto].
  intros H.
  pose proof (start_session_pg_spec now t p Hnow) as Hs.
  destruct (start_session_pg now t p) as [[t' p'] r]; simpl.
  destruct Hs as (_ & Hs & _); rewrite Hs.
  apply Forall_app; split; [apply Forall_close_s; assumption|].
  constructor; [apply Inv_new; exact Hnow|constructor].
Qed.

Lemma end_active_sessions_all (now : Z) (w : World) :
  0 < now -> all_sessions_w w -> all_sessions_w (fst (end_active_sessions now w)).
Proof.
  intros Hnow; destruct w as [t [p|]]; unfold end_active_sessions, all_sessions_w; simpl;
    [|auto].
  intros H.
  pose proof (end_active_sessions_pg_spec now t p Hnow) as Hs.
  destruct (end_active_sessions_pg now t p) as [[t' p'] c]; simpl.
  destruct Hs as (_ & Hs & _); rewrite Hs; apply Forall_close_s; assumption.
Qed.

Lemma Forall_list_update_nth (P : WTT_TimeSession -> Prop) (i : nat)
  (f : WTT_TimeSession -> WTT_TimeSession) (l : list WTT_TimeSession) :
  (forall x, P x -> P (f x)) -> Forall P l -> Forall P (list_update_nth i f l).
Proof.
  intros Hf H; revert i; induction H as [|x r Hx Hr IH]; intros [|i]; simpl;
    constructor; auto.
Qed.

Lemma reset_current_session_all (now : Z) (w : World) :
  0 < now -> all_sessions_w w -> all_sessions_w (fst (reset_current_session now w)).
Proof.
  intros Hnow; destruct w as [t [p|]]; unfold reset_current_session; cbn [pg td]; [|auto].
  intros Hw.
  destruct (_ || _); [exact Hw|].
  destruct (nth_error (sessions p) _) as [s|]; [|exact Hw].
  cbn [fst]; eapply all_sessions_w_frame;
    [rewrite frame_save_data, frame_update_total_time; reflexivity|].
  unfold all_sessions_w in *; simpl.
  apply Forall_list_update_nth; [|exact Hw].
  intros x; apply Inv_reset; exact Hnow.
Qed.

Lemma step_all_sessions (w w' : World) :
  step w w' -> all_sessions_w w -> all_sessions_w w'.
Proof.
  intros Hs Hw; destruct Hs as
    [now w Hn|now w Hn|now w Hn|now w Hn|now w Hn|now fp w Hn|now fp w Hn|now fp pref w Hn].
  - apply start_session_all; assumption.
  - unfold switch_session.
    pose proof (end_active_sessions_all now w Hn Hw) as H1.
    destruct (end_active_sessions now w) as [w1 c1].
    pose proof (start_session_all now w1 Hn H1) as H2.
    destruct (start_session now w1) as [w2 r2]; cbn [fst] in *.
    eapply all_sessions_w_frame; [apply frame_save_data|exact H2].
  - apply end_active_sessions_all; assumption.
  - destruct w as [t [p|]]; unfold reset; cbn [pg]; [|exact Hw].
    apply start_session_all; [exact Hn|constructor].
  - apply reset_current_session_all; assumption.
  - unfold load_handler; destruct (data_loaded (td w)); [exact Hw|].
    apply start_session_all; [exact Hn|].
    eapply all_sessions_w_frame; [|exact Hw].
    simpl; apply frame_load_data.
  - eapply all_sessions_w_frame; [apply frame_save_handler|exact Hw].
  - assert (H2 : all_sessions_w (update_total_time now
              (match pg w with
               | Some p => mkWorld (td w) (Some (break_check now pref p))
               | None => w
               end))).
    { eapply all_sessions_w_frame; [apply frame_update_total_time|].
      destruct w as [t [p|]]; [|exact Hw].
      eapply all_sessions_w_frame; [|exact Hw].
      simpl; f_equal; apply frame_break_check. }
    unfold update_time_callback.
    destruct (file_changed _ _); [|exact H2].
    eapply all_sessions_w_frame; [apply frame_save_data|].
    apply start_session_all; [exact Hn|].
    apply end_active_sessions_all; assumption.
Qed.

Lemma reachable_all_sessions (w : World) :
  (forall t p, sessions p = [] -> all_sessions_w (mkWorld t (Some p))) ->
  reachable w -> all_sessions_w w.
Proof.
  intros H0 Hr; induction Hr as [t|t p0 Hs _|w0 w1 _ IH Hst].
  - exact I.
  - apply H0; exact Hs.
  - exact (step_all_sessions w0 w1 Hst IH).
Qed.

End AllSessions.

Lemma reachable_starts_pos (w : World) :
  reachable w -> all_sessions_w (fun s => 0 < sstart s) w.
Proof.
  apply reachable_all_sessions.
  - intros now s Hn Hs; unfold close_s; destruct (is_open s); exact Hs.
  - intros now n Hn; exact Hn.
  - intros now s Hn _; exact Hn.
  - intros t p Hs; unfold all_sessions_w; simpl; rewrite Hs; constructor.
Qed.

(** In every reachable state every session has a positive start time. *)
Theorem reachable_sessions_started (w : World) (p : WTT_TimeData)
  (Hreach : reachable w) (Hpg : pg w = Some p) :
  forall s, In s (sessions p) -> 0 < sstart s.
Proof.
  pose proof (reachable_starts_pos w Hreach) as H.
  unfold all_sessions_w in H; rewrite Hpg in H.
  apply Forall_forall; exact H.
Qed.

Lemma world_switched_reachable : reachable world_switched.
Proof.
  apply (reach_step world_opened world_switched).
  - apply (reach_step (mkWorld td0 (Some pg_empty)) world_opened).
    + apply reach_empty; [reflexivity|simpl; lia].
    + unfold world_opened; apply step_start_session; lia.
  - unfold world_switched; apply step_switch_session; lia.
Qed.

Lemma world_switched_pg : pg world_switched = Some (pg_of world_switched).
Proof. vm_compute; reflexivity. Qed.

Lemma reachable_sessions_started_witness :
  reachable world_switched /\ pg world_switched = Some (pg_of world_switched) /\
  0 < sstart (mkSession 1 1000 2000 "").
Proof.
  split; [exact world_switched_reachable|split; [exact world_switched_pg|]].
  apply (reachable_sessions_started world_switched (pg_of world_switched)
           world_switched_reachable world_switched_pg).
  vm_compute; left; reflexivity.
Defined.

(** In every reachable state the durations listed by the export report add
    up to the total that [update_total_time] computes at the same instant. *)
Theorem export_durations_sum_to_total (now : Z) (w : World) (Hreach : reachable w) :
  zsum (export_session_durations now w) = total_time (td (update_total_time now w)).
Proof.
  destruct w as [t [p|]]; [|reflexivity].
  pose proof (reachable_starts_pos _ Hreach) as Hpos; unfold all_sessions_w in Hpos.
  cbn [pg] in Hpos.
  pose proof (reachable_session_ids_distinct _ p Hreach eq_refl) as Hnd.
  cbn [update_total_time update_total_time_pg pg td total_time set_td_total].
  rewrite (recalc_total_work_seconds now t p Hnd).
  unfold export_session_durations; cbn [pg].
  rewrite (forallb_filter_id _ _); [reflexivity|].
  apply forallb_forall; intros s Hs; apply Z.ltb_lt.
  exact (proj1 (Forall_forall _ _) Hpos s Hs).
Qed.

Lemma export_durations_sum_to_total_witness :
  reachable world_switched /\
  export_session_durations 2500 world_switched = [1000; 500] /\
  total_time (td (update_total_time 2500 world_switched)) = 1500.
Proof.
  split; [exact world_switched_reachable|split; [vm_compute; reflexivity|]].
  rewrite <- (export_durations_sum_to_total 2500 world_switched world_switched_reachable).
  vm_compute; reflexivity.
Defined.

(** *** [get_current_session] *)

Lemma find_via_index {A} (f : A -> bool) (l : list A) :
  find f l = match find_index f l with Some k => nth_error l k | None => None end.
Proof.
  induction l as [|x r IH]; simpl; [reflexivity|].
  destruct (f x); [reflexivity|].
  rewrite IH; destruct (find_index f r); reflexivity.
Qed.

Lemma find_index_lt {A} (f : A -> bool) (l : list A) (k : nat) :
  find_index f l = Some k -> (k < List.length l)%nat.
Proof.
  revert k; induction l as [|x r IH]; intros k; simpl; [discriminate|].
  destruct (f x); [intros E; injection E as <-; lia|].
  destruct (find_index f r) as [k'|] eqn:E; simpl; [|discriminate].
  intros E'; injection E' as <-; specialize (IH k' eq_refl); lia.
Qed.

Lemma find_index_map {A B} (g : B -> bool) (h : A -> B) (l : list A) :
  find_index (fun x => g (h x)) l = find_index g (map h l).
Proof. induction l as [|x r IH]; simpl; [reflexivity|rewrite IH; reflexivity]. Qed.

(** [get_current_session] returns the item at [get_current_session_pos]. *)
Lemma get_current_session_via_pos (p : WTT_TimeData) :
  get_current_session p =
  match get_current_session_pos p with
  | Some i => nth_error (sessions p) i
  | None => None
  end.
Proof.
  unfold get_current_session, get_current_session_pos.
  destruct (_ && _); [reflexivity|].
  rewrite find_via_index.
  destruct (find_index _ (rev (sessions p))) as [k|] eqn:E; simpl; [|reflexivity].
  pose proof (find_index_lt _ _ _ E) as Hk; rewrite length_rev in Hk.
  rewrite nth_error_rev.
  replace (Nat.ltb k (List.length (sessions p))) with true by (symmetry; apply Nat.ltb_lt; exact Hk).
  f_equal; lia.
Qed.

Lemma get_current_session_pos_lt (p : WTT_TimeData) (i : nat) :
  get_current_session_pos p = Some i -> (i < List.length (sessions p))%nat.
Proof.
  unfold get_current_session_pos.
  destruct ((0 <=? active_session_index p) &&
            (active_session_index p <? Z.of_nat (List.length (sessions p)))) eqn:C.
  - intros E; injection E as <-; apply andb_prop in C as [C1 C2].
    apply Z.leb_le in C1; apply Z.ltb_lt in C2; lia.
  - destruct (find_index _ (rev (sessions p))) as [k|] eqn:E; simpl; [|discriminate].
    intros E'; injection E' as <-.
    pose proof (find_index_lt _ _ _ E) as Hk; rewrite length_rev in Hk; lia.
Qed.

Lemma get_current_session_pos_some (p : WTT_TimeData) (i : nat) :
  get_current_session_pos p = Some i ->
  exists s, nth_error (sessions p) i = Some s /\ get_current_session p = Some s.
Proof.
  intros E; rewrite get_current_session_via_pos, E.
  pose proof (get_current_session_pos_lt p i E) as Hi.
  destruct (nth_error (sessions p) i) as [s|] eqn:En;
    [exists s; split; reflexivity|].
  apply nth_error_None in En; lia.
Qed.

Lemma get_current_session_pos_ext (p q : WTT_TimeData) :
  active_session_index p = active_session_index q ->
  map send (sessions p) = map send (sessions q) ->
  get_current_session_pos p = get_current_session_pos q.
Proof.
  intros Hi Hs; unfold get_current_session_pos.
  assert (Hl : List.length (sessions p) = List.length (sessions q)).
  { rewrite <- (length_map send (sessions p)), <- (length_map send (sessions q)), Hs.
    reflexivity. }
  rewrite Hi, Hl, (find_index_map (fun z => z <=? 0) send (rev (sessions p))),
    (find_index_map (fun z => z <=? 0) send (rev (sessions q))), !map_rev, Hs.
  reflexivity.
Qed.

Lemma get_current_session_frame (p q : WTT_TimeData) :
  sess_frame p = sess_frame q -> get_current_session p = get_current_session q.
Proof.
  unfold sess_frame; intros E; injection E as Es Ei.
  unfold get_current_session; rewrite Es, Ei; reflexivity.
Qed.

(** [get_current_session] returns nothing exactly when
    [active_session_index] is out of range and every session has ended. *)
Theorem get_current_session_none_iff (p : WTT_TimeData) :
  get_current_session p = None <->
  ~ (0 <= active_session_index p < Z.of_nat (List.length (sessions p))) /\
  (forall s, In s (sessions p) -> 0 < send s).
Proof.
  unfold get_current_session.
  destruct ((0 <=? active_session_index p) &&
            (active_session_index p <? Z.of_nat (List.length (sessions p)))) eqn:C.
  - apply andb_prop in C as [C1 C2]; apply Z.leb_le in C1; apply Z.ltb_lt in C2.
    split; [|intros [Hn _]; exfalso; apply Hn; lia].
    intros E; apply nth_error_None in E; lia.
  - assert (Hn : ~ (0 <= active_session_index p < Z.of_nat (List.length (sessions p)))).
    { intros [H1 H2]; apply Z.leb_le in H1; apply Z.ltb_lt in H2.
      rewrite H1, H2 in C; discriminate. }
    split.
    + intros E; split; [exact Hn|]; intros s Hs.
      pose proof (find_none _ _ E s (proj1 (in_rev _ _) Hs)) as Hf.
      apply Z.leb_gt in Hf; exact Hf.
    + intros [_ Hall].
      destruct (find _ (rev (sessions p))) as [s|] eqn:E; [|reflexivity].
      apply find_some in E as [Hin Hf]; apply in_rev in Hin.
      specialize (Hall s Hin); apply Z.leb_le in Hf; lia.
Qed.

Lemma reachable_single_open_w (w : World) : reachable w -> single_open_w w.
Proof.
  induction 1 as [t|t p0 Hs Hi|w0 w1 _ IH Hst].
  - exact I.
  - unfold single_open_w, single_open; simpl; rewrite Hs.
    split; [unfold count_open; simpl; lia | intros; exfalso; lia].
  - exact (step_single_open w0 w1 Hst IH).
Qed.

Lemma count_open_In (ss : list WTT_TimeSession) (s : WTT_TimeSession) :
  In s ss -> is_open s = true -> (1 <= count_open ss)%nat.
Proof.
  intros Hin Ho; unfold count_open.
  assert (Hf : In s (filter is_open ss)) by (apply filter_In; split; assumption).
  destruct (filter is_open ss); [contradiction|simpl; lia].
Qed.

Lemma count_open_unique (ss : list WTT_TimeSession) (a b : WTT_TimeSession) :
  (count_open ss <= 1)%nat -> In a ss -> In b ss ->
  is_open a = true -> is_open b = true -> a = b.
Proof.
  induction ss as [|x r IH]; intros Hc Ha Hb Hoa Hob; [contradiction|].
  unfold count_open in Hc; simpl in Hc.
  destruct Ha as [<-|Ha], Hb as [<-|Hb]; [reflexivity| | |].
  - rewrite Hoa in Hc; simpl in Hc; pose proof (count_open_In r b Hb Hob).
    unfold count_open in *; lia.
  - rewrite Hob in Hc; simpl in Hc; pose proof (count_open_In r a Ha Hoa).
    unfold count_open in *; lia.
  - apply IH; try assumption; destruct (is_open x); simpl in Hc; unfold count_open; lia.
Qed.

(** In every reachable state [get_current_session] returns exactly the open
    session: it returns [s] iff [s] is a session with [end <= 0]. *)
Theorem reachable_current_session_is_open (w : World) (p : WTT_TimeData)
  (Hreach : reachable w) (Hpg : pg w = Some p) :
  forall s, get_current_session p = Some s <-> In s (sessions p) /\ send s <= 0.
Proof.
  pose proof (reachable_single_open_w w Hreach) as H.
  unfold single_open_w in H; rewrite Hpg in H; destruct H as [Hc Hi].
  intros s; unfold get_current_session.
  destruct ((0 <=? active_session_index p) &&
            (active_session_index p <? Z.of_nat (List.length (sessions p)))) eqn:C.
  - apply andb_prop in C as [C1 _]; apply Z.leb_le in C1.
    destruct (Hi C1) as (s' & Hn & Ho).
    rewrite Hn; split.
    + intros E; injection E as <-; split; [eapply nth_error_In; exact Hn|exact Ho].
    + intros [Hin Hs]; f_equal.
      pose proof (nth_error_In _ _ Hn) as Hin'.
      apply (count_open_unique (sessions p)); unfold is_open;
        first [assumption | apply Z.leb_le; assumption].
  - split.
    + intros E; apply find_some in E as [Hin Hf]; apply in_rev in Hin.
      apply Z.leb_le in Hf; split; assumption.
    + intros [Hin Hs].
      destruct (find (fun x => send x <=? 0) (rev (sessions p))) as [s'|] eqn:E.
      * apply find_some in E as [Hin' Hf]; apply in_rev in Hin'.
        f_equal; apply (count_open_unique (sessions p)); unfold is_open;
          first [assumption | apply Z.leb_le; assumption].
      * pose proof (find_none _ _ E s (proj1 (in_rev _ _) Hin)) as Hf.
        apply Z.leb_gt in Hf; lia.
Qed.

Lemma reachable_current_session_is_open_witness :
  reachable world_switched /\ pg world_switched = Some (pg_of world_switched) /\
  In (mkSession 2 2000 0 "") (sessions (pg_of world_switched)) /\
  send (mkSession 2 2000 0 "") <= 0.
Proof.
  split; [exact world_switched_reachable|split; [exact world_switched_pg|]].
  apply (reachable_current_session_is_open world_switched (pg_of world_switched)
           world_switched_reachable world_switched_pg).
  vm_compute; reflexivity.
Defined.

(** *** [set_session_comment], [get_session_comment] and [update_session] *)

Lemma map_list_update_nth {A B} (h : A -> B) (i : nat) (f : A -> A) (l : list A) :
  (forall x, h (f x) = h x) -> map h (list_update_nth i f l) = map h l.
Proof.
  intros Hf; revert i; induction l as [|x r IH]; intros [|i]; simpl;
    rewrite ?Hf, ?IH; reflexivity.
Qed.

Lemma save_data_pg (now : Z) (t : TimeData) (q : WTT_TimeData) :
  pg (save_data now (mkWorld t (Some q))) =
  Some (_sync_to_pg (set_td_last_save now (set_td_total (recalc_total now q) t))
          (set_pg_total (recalc_total now q) q)).
Proof. reflexivity. Qed.

Lemma save_data_last_save (now : Z) (w : World) : last_save_time (td (save_data now w)) = now.
Proof. destruct w as [t [q|]]; reflexivity. Qed.

(** Setting the comment of the current session and reading it back gives the
    comment; only that session's comment changes: the session at the
    current position becomes [s] with the new comment, every other position
    holds the same session as before, the number of sessions, the active
    index and the breaks are kept, and the data is saved. *)
Theorem set_session_comment_round_trip (now : Z) (comment : string) (w : World)
  (s : WTT_TimeSession) (Hcur : get_current_session_w w = Some s) :
  let r := set_session_comment now comment w in
  snd r = true /\
  get_current_session_w (fst r) = Some (set_scomment comment s) /\
  get_session_comment (fst r) = comment /\
  last_save_time (td (fst r)) = now /\
  exists p p' i, pg w = Some p /\ pg (fst r) = Some p' /\
    nth_error (sessions p) i = Some s /\
    nth_error (sessions p') i = Some (set_scomment comment s) /\
    (forall j, j <> i -> nth_error (sessions p') j = nth_error (sessions p) j) /\
    List.length (sessions p') = List.length (sessions p) /\
    active_session_index p' = active_session_index p /\
    break_sessions p' = break_sessions p /\ is_on_break p' = is_on_break p.
Proof.
  destruct w as [t [p|]]; unfold get_current_session_w in Hcur; cbn [pg] in Hcur;
    [|discriminate].
  pose proof Hcur as Hcur'; rewrite get_current_session_via_pos in Hcur'.
  destruct (get_current_session_pos p) as [i|] eqn:Ep; [|discriminate].
  set (g := list_update_nth i (set_scomment comment) (sessions p)).
  set (p1 := set_pg_sessions g (active_session_index p) p).
  assert (Hpos : get_current_session_pos p1 = Some i).
  { rewrite <- Ep; apply get_current_session_pos_ext; [reflexivity|].
    unfold p1, g; simpl; apply map_list_update_nth; reflexivity. }
  assert (Hc1 : get_current_session p1 = Some (set_scomment comment s)).
  { rewrite get_current_session_via_pos, Hpos; unfold p1, g; simpl.
    apply nth_error_list_update_nth; exact Hcur'. }
  unfold set_session_comment; cbn [pg td]; rewrite Ep; fold g; fold p1; cbn [fst snd].
  assert (Hc2 : get_current_session_w (save_data now (mkWorld t (Some p1))) =
                Some (set_scomment comment s)).
  { unfold get_current_session_w; rewrite save_data_pg; rewrite <- Hc1.
    apply get_current_session_frame; reflexivity. }
  split; [reflexivity|split; [exact Hc2|split]].
  - unfold get_session_comment; rewrite Hc2; reflexivity.
  - split; [apply save_data_last_save|].
    eexists; eexists; exists i; split; [reflexivity|split; [apply save_data_pg|]].
    cbn [_sync_to_pg set_pg_total sessions active_session_index break_sessions
         is_on_break].
    unfold p1, g; cbn [set_pg_sessions sessions active_session_index break_sessions
                      is_on_break].
    split; [exact Hcur'|].
    split; [apply nth_error_list_update_nth; exact Hcur'|].
    split; [intros j Hj; apply nth_error_list_update_nth_other; exact Hj|].
    split; [apply length_list_update_nth|repeat split].
Qed.

(** Without a current session, [set_session_comment] returns [False] and
    changes nothing, and [get_session_comment] returns the empty string. *)
Theorem set_session_comment_without_session (now : Z) (comment : string) (w : World)
  (Hnone : get_current_session_w w = None) :
  set_session_comment now comment w = (w, false) /\ get_session_comment w = EmptyString.
Proof.
  destruct w as [t [p|]]; [|split; reflexivity].
  unfold get_current_session_w in Hnone; cbn [pg] in Hnone.
  rewrite get_current_session_via_pos in Hnone.
  destruct (get_current_session_pos p) as [i|] eqn:Ep.
  - destruct (get_current_session_pos_some p i Ep) as (s & Hn & _).
    rewrite Hn in Hnone; discriminate.
  - unfold set_session_comment; cbn [pg]; rewrite Ep; split; [reflexivity|].
    unfold get_session_comment, get_current_session_w; cbn [pg].
    rewrite get_current_session_via_pos, Ep; reflexivity.
Qed.

Definition world_ended : World := fst (end_active_sessions 1500 world_opened).

Lemma set_session_comment_round_trip_witness :
  get_current_session_w world_switched = Some (mkSession 2 2000 0 "") /\
  get_session_comment (fst (set_session_comment 2100 "modeling" world_switched)) =
    "modeling"%string.
Proof.
  assert (H : get_current_session_w world_switched = Some (mkSession 2 2000 0 ""))
    by (vm_compute; reflexivity).
  split; [exact H|].
  destruct (set_session_comment_round_trip 2100 "modeling" world_switched _ H)
    as (_ & _ & Hc & _); exact Hc.
Defined.

Lemma set_session_comment_without_session_witness :
  get_current_session_w world_ended = None /\
  snd (set_session_comment 1600 "note" world_ended) = false.
Proof.
  assert (H : get_current_session_w world_ended = None) by (vm_compute; reflexivity).
  split; [exact H|].
  rewrite (proj1 (set_session_comment_without_session 1600 "note" world_ended H)).
  reflexivity.
Defined.

Lemma get_current_session_In (p : WTT_TimeData) (s : WTT_TimeSession) :
  get_current_session p = Some s -> In s (sessions p).
Proof.
  rewrite get_current_session_via_pos.
  destruct (get_current_session_pos p); [apply nth_error_In|discriminate].
Qed.

Lemma zsum_ge_elem (l : list Z) (x : Z) :
  Forall (fun z => 0 <= z) l -> In x l -> x <= zsum l.
Proof.
  induction 1 as [|y r Hy Hr IH]; [contradiction|].
  intros [<-|Hin]; simpl; [|specialize (IH Hin)];
    pose proof (zsum_nonneg r Hr); unfold zsum in *; lia.
Qed.

Lemma zsum_contrib_nonneg (now : Z) (p : WTT_TimeData) (l : list WTT_TimeSession) :
  Forall (fun z => 0 <= z) (map (spec_contrib now p) l).
Proof.
  apply Forall_forall; intros z Hz; apply in_map_iff in Hz as (s & <- & _).
  apply spec_contrib_nonneg.
Qed.

(** In every reachable state, [update_session] returns a current-session
    time that is non-negative and at most the total it has just computed. *)
Theorem update_session_bounded (now : Z) (w : World) (Hreach : reachable w) :
  0 <= snd (update_session now w) <= total_time (td (fst (update_session now w))).
Proof.
  destruct w as [t [p|]]; [|cbn; lia].
  pose proof (reachable_starts_pos _ Hreach) as Hpos; unfold all_sessions_w in Hpos.
  cbn [pg] in Hpos.
  pose proof (reachable_session_ids_distinct _ p Hreach eq_refl) as Hnd.
  set (R := recalc_total now p).
  assert (HR : R = zsum (map (spec_contrib now p) (sessions p)))
    by exact (recalc_total_spec now p Hnd).
  assert (Hw : update_total_time now (mkWorld t (Some p)) =
               mkWorld (set_td_total R t) (Some (set_pg_total R p))) by reflexivity.
  unfold update_session; rewrite Hw; cbn [fst snd td total_time set_td_total].
  unfold get_current_session_time, get_current_session_w; cbn [pg].
  change (get_current_session (set_pg_total R p)) with (get_current_session p).
  destruct (get_current_session p) as [s|] eqn:Ec.
  - pose proof (get_current_session_In p s Ec) as Hin.
    assert (Hs : 0 < sstart s) by exact (proj1 (Forall_forall _ _) Hpos s Hin).
    rewrite (work_seconds_known now (set_td_total R t) (set_pg_total R p) s)
      by (try exact Hs; apply find_unique_id; assumption).
    change (spec_contrib now (set_pg_total R p) s) with (spec_contrib now p s).
    split; [apply spec_contrib_nonneg|].
    rewrite HR; apply zsum_ge_elem; [apply zsum_contrib_nonneg|apply in_map; exact Hin].
  - split; [lia|]. rewrite HR; apply zsum_nonneg, zsum_contrib_nonneg.
Qed.

Lemma update_session_bounded_witness :
  reachable world_switched /\ snd (update_session 2500 world_switched) = 500 /\
  total_time (td (fst (update_session 2500 world_switched))) = 1500 /\
  0 <= snd (update_session 2500 world_switched) <=
    total_time (td (fst (update_session 2500 world_switched))).
Proof.
  split; [exact world_switched_reachable|].
  split; [vm_compute; reflexivity|split; [vm_compute; reflexivity|]].
  exact (update_session_bounded 2500 world_switched world_switched_reachable).
Defined.

(** *** [reset], [reset_current_session] and the break-clearing operator *)

Lemma total_step_fresh (now : Z) (q : WTT_TimeData) (acc i : Z) (c : string) :
  0 < now -> total_step now q acc (mkSession i now 0 c) = acc.
Proof.
  intros Hnow; unfold total_step, session_end_cap; cbn [send sstart sid].
  replace (now <=? 0) with false by (symmetry; apply Z.leb_gt; lia).
  pose proof (sum_breaks_nonneg q i now); simpl; lia.
Qed.

(** The reset operator ([reset] then [save_data]) leaves one open session
    #1 started at the clock, no break, a zero total, and last-save and
    creation times equal to the clock; the file id is kept. *)
Theorem reset_data_execute_fresh (now : Z) (w : World) (p : WTT_TimeData)
  (Hnow : 0 < now) (Hpg : pg w = Some p) :
  let w' := reset_data_execute now w in
  total_time (td w') = 0 /\ last_save_time (td w') = now /\
  file_creation_time (td w') = now /\ file_id (td w') = file_id (td w) /\
  exists p', pg w' = Some p' /\ sessions p' = [mkSession 1 now 0 ""] /\
    break_sessions p' = [] /\ active_session_index p' = 0 /\ is_on_break p' = false /\
    active_break_index p' = -1 /\ last_activity_time p' = now /\ pg_total_time p' = 0.
Proof.
  destruct w as [t q]; cbn in Hpg; subst q.
  unfold reset_data_execute, reset; cbn.
  rewrite !total_step_fresh by exact Hnow.
  repeat split; eexists; repeat split.
Qed.

Lemma reset_data_execute_fresh_witness :
  0 < 3000 /\ pg world_switched = Some (pg_of world_switched) /\
  option_map sessions (pg (reset_data_execute 3000 world_switched)) =
    Some [mkSession 1 3000 0 ""].
Proof.
  assert (H : 0 < 3000) by lia.
  split; [exact H|split; [exact world_switched_pg|]].
  destruct (reset_data_execute_fresh 3000 world_switched (pg_of world_switched) H
              world_switched_pg) as (_ & _ & _ & _ & p' & Hp & Hs & _).
  rewrite Hp; cbn [option_map]; rewrite Hs; reflexivity.
Defined.


(** [reset_current_session] returns [False] and changes nothing when there is
    no scene or [active_session_index] is out of range; otherwise it returns
    [True], restarts the session at that index ([start = now], [end = 0], id
    and comment kept), leaves the other sessions and the index as they were,
    clears the break state and saves. *)
Theorem reset_current_session_effect (now : Z) (w : World) :
  let r := reset_current_session now w in
  (pg w = None -> r = (w, false)) /\
  (forall p, pg w = Some p ->
     ~ (0 <= active_session_index p < Z.of_nat (List.length (sessions p))) ->
     r = (w, false)) /\
  (forall p s, pg w = Some p -> 0 <= active_session_index p ->
     nth_error (sessions p) (Z.to_nat (active_session_index p)) = Some s ->
     snd r = true /\ last_save_time (td (fst r)) = now /\
     exists p', pg (fst r) = Some p' /\
       nth_error (sessions p') (Z.to_nat (active_session_index p)) =
         Some (mkSession (sid s) now 0 (scomment s)) /\
       (forall j, j <> Z.to_nat (active_session_index p) ->
          nth_error (sessions p') j = nth_error (sessions p) j) /\
       List.length (sessions p') = List.length (sessions p) /\
       active_session_index p' = active_session_index p /\
       is_on_break p' = false /\ active_break_index p' = -1).
Proof.
  destruct w as [t [q|]]; unfold reset_current_session; cbn [pg td].
  - split; [discriminate|split].
    + intros p Hp Hn; injection Hp as <-.
      destruct ((active_session_index q <? 0) ||
                (Z.of_nat (List.length (sessions q)) <=? active_session_index q)) eqn:C;
        [reflexivity|].
      apply orb_false_iff in C as [C1 C2]; apply Z.ltb_ge in C1; apply Z.leb_gt in C2.
      exfalso; apply Hn; lia.
    + intros p s Hp H0 Hn; injection Hp as <-.
      assert (Hlt : (Z.to_nat (active_session_index q) < List.length (sessions q))%nat)
        by (apply nth_error_Some; rewrite Hn; discriminate).
      replace ((active_session_index q <? 0) ||
               (Z.of_nat (List.length (sessions q)) <=? active_session_index q)) with false
        by (symmetry; apply orb_false_iff; split; [apply Z.ltb_ge | apply Z.leb_gt]; lia).
      rewrite Hn; cbn [fst snd update_total_time update_total_time_pg pg td].
      split; [reflexivity|split; [apply save_data_last_save|]].
      eexists; split; [apply save_data_pg|].
      cbn [_sync_to_pg set_pg_total set_pg_breaks set_pg_sessions sessions
           active_session_index is_on_break active_break_index].
      split; [rewrite (nth_error_list_update_nth _ _ _ _ Hn); reflexivity|].
      split; [intros j Hj; apply nth_error_list_update_nth_other; exact Hj|].
      split; [apply length_list_update_nth|repeat split].
  - split; [reflexivity|split; intros p ?; discriminate].
Qed.

Lemma reset_current_session_effect_witness :
  pg world_switched = Some (pg_of world_switched) /\
  0 <= active_session_index (pg_of world_switched) /\
  nth_error (sessions (pg_of world_switched))
    (Z.to_nat (active_session_index (pg_of world_switched))) =
    Some (mkSession 2 2000 0 "") /\
  option_map (fun p => nth_error (sessions p) 1)
    (pg (fst (reset_current_session 2500 world_switched))) =
    Some (Some (mkSession 2 2500 0 "")).
Proof.
  assert (H0 : 0 <= active_session_index (pg_of world_switched))
    by (vm_compute; discriminate).
  assert (Hn : nth_error (sessions (pg_of world_switched))
                 (Z.to_nat (active_session_index (pg_of world_switched))) =
               Some (mkSession 2 2000 0 "")) by (vm_compute; reflexivity).
  split; [exact world_switched_pg|split; [exact H0|split; [exact Hn|]]].
  destruct (proj2 (proj2 (reset_current_session_effect 2500 world_switched))
              _ _ world_switched_pg H0 Hn) as (_ & _ & p' & Hp & Hs & _).
  rewrite Hp; cbn [option_map]; f_equal; exact Hs.
Defined.

Lemma recalc_total_no_breaks_ge (now : Z) (p q : WTT_TimeData) :
  sessions q = sessions p -> break_sessions q = [] ->
  recalc_total now p <= recalc_total now q.
Proof.
  intros Hs Hb; unfold recalc_total; rewrite Hs.
  assert (H : forall l a b, a <= b ->
            fold_left (total_step now p) l a <= fold_left (total_step now q) l b).
  { induction l as [|s r IH]; intros a b Hab; simpl; [exact Hab|].
    apply IH; unfold total_step.
    destruct (sstart s <=? 0); [exact Hab|].
    assert (Hq : _sum_breaks_for_session q (sid s) (session_end_cap now s) = 0).
    { unfold _sum_breaks_for_session; rewrite Hb.
      destruct (find _ _); reflexivity. }
    rewrite Hq.
    pose proof (sum_breaks_nonneg p (sid s) (session_end_cap now s)); lia. }
  apply H; lia.
Qed.

(** The break-clearing operator is cancelled without a scene. While a break
    that has started is active (on break, [active_break_index] pointing at a
    break with [start > 0]) it raises [TypeError] and changes nothing.
    Otherwise it finishes: it empties the break list, clears [is_on_break]
    and [active_break_index], leaves the sessions and the in-memory data
    alone, and the total recomputed at any instant can only grow. *)
Theorem clear_breaks_execute_effect (w : World) :
  let r := clear_breaks_execute w in
  (pg w = None -> r = (w, op_cancelled)) /\
  (forall p, pg w = Some p ->
     (forall br, is_on_break p = true -> 0 <= active_break_index p ->
        nth_error (break_sessions p) (Z.to_nat (active_break_index p)) = Some br ->
        0 < bstart br -> r = (w, op_type_error)) /\
     ((forall br, is_on_break p = true -> 0 <= active_break_index p ->
         nth_error (break_sessions p) (Z.to_nat (active_break_index p)) = Some br ->
         bstart br <= 0) ->
      snd r = op_finished /\ td (fst r) = td w /\
      exists p', pg (fst r) = Some p' /\ break_sessions p' = [] /\
        is_on_break p' = false /\ active_break_index p' = -1 /\
        sessions p' = sessions p /\ active_session_index p' = active_session_index p /\
        forall now, recalc_total now p <= recalc_total now p')).
Proof.
  destruct w as [t [q|]]; unfold clear_breaks_execute; cbn [pg td].
  - split; [discriminate|]; intros p Hp; injection Hp as ->.
    assert (Hfin : snd (mkWorld t (Some (set_pg_breaks [] false (-1) p)), op_finished)
                     = op_finished /\
                   td (fst (mkWorld t (Some (set_pg_breaks [] false (-1) p)), op_finished))
                     = t /\
                   exists p', pg (fst (mkWorld t (Some (set_pg_breaks [] false (-1) p)),
                                       op_finished)) = Some p' /\
                     break_sessions p' = [] /\ is_on_break p' = false /\
                     active_break_index p' = -1 /\ sessions p' = sessions p /\
                     active_session_index p' = active_session_index p /\
                     forall now, recalc_total now p <= recalc_total now p').
    { split; [reflexivity|split; [reflexivity|]].
      eexists; split; [reflexivity|].
      cbn [set_pg_breaks break_sessions is_on_break active_break_index sessions
           active_session_index].
      repeat split; intros now; apply recalc_total_no_breaks_ge; reflexivity. }
    split.
    + intros br Ho Hlo Hbr Hst.
      assert (Hlt : (Z.to_nat (active_break_index p) < List.length (break_sessions p))%nat)
        by (apply nth_error_Some; rewrite Hbr; discriminate).
      rewrite Ho, Hbr.
      replace (0 <=? active_break_index p) with true by (symmetry; apply Z.leb_le; exact Hlo).
      replace (active_break_index p <? Z.of_nat (List.length (break_sessions p))) with true
        by (symmetry; apply Z.ltb_lt; lia).
      replace (0 <? bstart br) with true by (symmetry; apply Z.ltb_lt; exact Hst).
      reflexivity.
    + intros Hno.
      destruct (is_on_break p && (0 <=? active_break_index p) &&
                (active_break_index p <? Z.of_nat (List.length (break_sessions p)))) eqn:Ec;
        [|exact Hfin].
      apply andb_prop in Ec as [Ec _]; apply andb_prop in Ec as [Ho Hlo].
      apply Z.leb_le in Hlo.
      destruct (nth_error (break_sessions p) (Z.to_nat (active_break_index p))) as [br|] eqn:Hbr;
        [|exact Hfin].
      specialize (Hno br Ho Hlo eq_refl).
      replace (0 <? bstart br) with false by (symmetry; apply Z.ltb_ge; exact Hno).
      exact Hfin.
  - split; [reflexivity|intros p Hp; discriminate].
Qed.

(** On [pg_two_sessions] (on break, the active break #2 started at 450) the
    operator raises [TypeError] and leaves the state as it was. *)
Lemma clear_breaks_execute_effect_witness :
  clear_breaks_execute (mkWorld td0 (Some pg_two_sessions)) =
  (mkWorld td0 (Some pg_two_sessions), op_type_error).
Proof.
  destruct (clear_breaks_execute_effect (mkWorld td0 (Some pg_two_sessions))) as [_ H].
  destruct (H pg_two_sessions eq_refl) as [Hr _].
  apply (Hr (mkBreak 2 2 450 0 "inactivity" "")); [reflexivity|cbn; lia|reflexivity|cbn; lia].
Defined.

(** *** Closing sessions at an instant keeps the total at that instant *)

Lemma close_b_fields (now : Z) (ss : list WTT_TimeSession) (b : WTT_BreakSession) :
  bsession_id (close_b now ss b) = bsession_id b /\ bstart (close_b now ss b) = bstart b.
Proof. unfold close_b; destruct (ended_break ss b); split; reflexivity. Qed.

Lemma session_end_cap_close (now : Z) (s : WTT_TimeSession) :
  0 < now -> session_end_cap now (close_s now s) = session_end_cap now s.
Proof.
  intros Hnow; unfold session_end_cap, close_s, is_open.
  destruct (send s <=? 0) eqn:E; cbn [send set_send]; [|rewrite E; reflexivity].
  replace (now <=? 0) with false by (symmetry; apply Z.leb_gt; lia); reflexivity.
Qed.

Lemma NoDup_sid_eq (ss : list WTT_TimeSession) (a b : WTT_TimeSession) :
  NoDup (map sid ss) -> In a ss -> In b ss -> sid a = sid b -> a = b.
Proof.
  intros Hnd Ha Hb E.
  pose proof (find_unique_id ss a Hnd Ha) as Fa.
  pose proof (find_unique_id ss b Hnd Hb) as Fb.
  rewrite E in Fa; congruence.
Qed.

Lemma overlap_close_b (now : Z) (ss : list WTT_TimeSession) (s : WTT_TimeSession)
  (b : WTT_BreakSession) :
  0 < now -> NoDup (map sid ss) -> In s ss -> bsession_id b = sid s ->
  spec_break_overlap (sstart s) (session_end_cap now s) (close_b now ss b) =
  spec_break_overlap (sstart s) (session_end_cap now s) b.
Proof.
  intros Hnow Hnd Hin Hid; unfold close_b.
  destruct (ended_break ss b) eqn:Eb; [|reflexivity].
  unfold ended_break in Eb; apply andb_prop in Eb as [Eb Hex].
  apply andb_prop in Eb as [_ Hend]; apply Z.leb_le in Hend.
  apply existsb_exists in Hex as (s' & Hin' & Hx); apply andb_prop in Hx as [Ho Hx].
  apply Z.eqb_eq in Hx.
  assert (Es : s' = s) by (apply (NoDup_sid_eq ss); congruence); subst s'.
  unfold is_open in Ho; apply Z.leb_le in Ho.
  unfold spec_break_overlap, session_end_cap; cbn [bend bstart set_bend].
  replace (send s <=? 0) with true by (symmetry; apply Z.leb_le; exact Ho).
  replace (0 <? now) with true by (symmetry; apply Z.ltb_lt; exact Hnow).
  replace (0 <? bend b) with false by (symmetry; apply Z.ltb_ge; exact Hend).
  reflexivity.
Qed.

Lemma spec_breaks_close (now : Z) (ss : list WTT_TimeSession) (s : WTT_TimeSession)
  (bs : list WTT_BreakSession) :
  0 < now -> NoDup (map sid ss) -> In s ss ->
  zsum (map (spec_break_overlap (sstart s) (session_end_cap now s))
          (filter (fun b => (bsession_id b =? sid s) && (0 <? bstart b))
             (map (close_b now ss) bs))) =
  zsum (map (spec_break_overlap (sstart s) (session_end_cap now s))
          (filter (fun b => (bsession_id b =? sid s) && (0 <? bstart b)) bs)).
Proof.
  intros Hnow Hnd Hin; induction bs as [|b r IH]; [reflexivity|].
  cbn [map filter]; destruct (close_b_fields now ss b) as [E1 E2].
  rewrite E1, E2.
  destruct ((bsession_id b =? sid s) && (0 <? bstart b)) eqn:F; [|exact IH].
  cbn [map]; unfold zsum in *; cbn [fold_right]; rewrite IH.
  apply andb_prop in F as [F _]; apply Z.eqb_eq in F.
  rewrite (overlap_close_b now ss s b Hnow Hnd Hin F); reflexivity.
Qed.

Lemma spec_contrib_close (now : Z) (p q : WTT_TimeData) (s : WTT_TimeSession) :
  0 < now -> NoDup (map sid (sessions p)) -> In s (sessions p) ->
  break_sessions q = map (close_b now (sessions p)) (break_sessions p) ->
  spec_contrib now q (close_s now s) = spec_contrib now p s.
Proof.
  intros Hnow Hnd Hin Hb.
  assert (Hst : sstart (close_s now s) = sstart s)
    by (unfold close_s; destruct (is_open s); reflexivity).
  assert (Hid : sid (close_s now s) = sid s)
    by (unfold close_s; destruct (is_open s); reflexivity).
  unfold spec_contrib, spec_breaks; rewrite Hst, Hid, (session_end_cap_close now s Hnow), Hb.
  rewrite (spec_breaks_close now (sessions p) s (break_sessions p) Hnow Hnd Hin).
  reflexivity.
Qed.

Lemma find_app_left {A} (f : A -> bool) (l1 l2 : list A) (x : A) :
  find f l1 = Some x -> find f (l1 ++ l2) = Some x.
Proof.
  induction l1 as [|y r IH]; simpl; [discriminate|].
  destruct (f y); [exact id|exact IH].
Qed.

Lemma recalc_total_close_append (now : Z) (p q : WTT_TimeData)
  (tail : list WTT_TimeSession) :
  0 < now -> NoDup (map sid (sessions p)) ->
  sessions q = map (close_s now) (sessions p) ++ tail ->
  (forall s, In s tail -> exists i c, s = mkSession i now 0 c) ->
  break_sessions q = map (close_b now (sessions p)) (break_sessions p) ->
  recalc_total now q = recalc_total now p.
Proof.
  intros Hnow Hnd Hs Htail Hb.
  rewrite (recalc_total_spec now p Hnd); unfold recalc_total; rewrite Hs, fold_left_app.
  assert (Hfresh : forall l acc, (forall s, In s l -> exists i c, s = mkSession i now 0 c) ->
                     fold_left (total_step now q) l acc = acc).
  { induction l as [|s r IH]; intros acc Hl; [reflexivity|]; simpl.
    destruct (Hl s (or_introl eq_refl)) as (i & c & ->).
    rewrite total_step_fresh by exact Hnow.
    apply IH; intros; apply Hl; right; assumption. }
  rewrite Hfresh by exact Htail.
  assert (Hnd' : NoDup (map sid (map (close_s now) (sessions p))))
    by (rewrite map_sid_close_s; exact Hnd).
  rewrite fold_total_step.
  - rewrite Z.add_0_l, map_map; f_equal; apply map_ext_in; intros s Hin.
    apply spec_contrib_close; assumption.
  - intros s Hin; rewrite Hs; apply find_app_left, find_unique_id; assumption.
Qed.

Lemma start_session_pg_la_onb (now : Z) (t : TimeData) (p : WTT_TimeData) :
  let '(t', p', _) := start_session_pg now t p in
  last_activity_time p' = now /\ is_on_break p' = false /\ file_id t' = file_id t /\
  data_loaded t' = data_loaded t.
Proof.
  unfold start_session_pg, end_active_sessions_pg.
  destruct (end_loop now (sessions p) (break_sessions p)) as [[ss bs] c].
  destruct (c =? 0); repeat split.
Qed.

(** In a reachable state, switching sessions does not change the total at
    that instant (the closed sessions end at the clock, the new one has not
    run yet), and the current-session time right after the switch is 0. *)
Theorem switch_session_keeps_total (now : Z) (w : World)
  (Hreach : reachable w) (Hnow : 0 < now) :
  total_time (td (fst (switch_session now w))) = total_time (td (update_total_time now w)) /\
  get_current_session_time now (fst (switch_session now w)) = 0.
Proof.
  assert (Hreach' : reachable (fst (switch_session now w)))
    by (apply (reach_step w); [exact Hreach|apply step_switch_session; exact Hnow]).
  destruct w as [t [p|]]; [|split; reflexivity].
  pose proof (reachable_session_ids_distinct _ p Hreach eq_refl) as Hnd.
  revert Hreach'.
  unfold switch_session, end_active_sessions; cbn [pg td].
  pose proof (end_active_sessions_pg_spec now t p Hnow) as H1.
  destruct (end_active_sessions_pg now t p) as [[t1 p1] c].
  destruct H1 as (_ & Hs1 & Hb1 & _).
  unfold start_session; cbn [pg td].
  pose proof (start_session_pg_spec now t1 p1 Hnow) as H2.
  destruct (start_session_pg now t1 p1) as [[t2 p2] r].
  destruct H2 as (Hr & Hs2 & Hb2 & Hidx & _).
  cbn [fst]; intros Hreach'.
  assert (Hnd1 : NoDup (map sid (sessions p1))) by (rewrite Hs1, map_sid_close_s; exact Hnd).
  split.
  - cbn [save_data update_total_time update_total_time_pg pg td total_time set_td_last_save
         set_td_total].
    rewrite (recalc_total_close_append now p1 p2 [mkSession r now 0 ""] Hnow Hnd1 Hs2)
      by (try exact Hb2; intros s [<-|[]]; exists r, ""%string; reflexivity).
    assert (Hcl : recalc_total now p1 = recalc_total now p).
    { apply (recalc_total_close_append now p p1 [] Hnow Hnd);
        [rewrite app_nil_r; exact Hs1|intros s []|exact Hb1]. }
    rewrite Hcl; reflexivity.
  - set (w' := save_data now (mkWorld t2 (Some p2))) in *.
    assert (Hp' : pg w' = Some (_sync_to_pg (set_td_last_save now
                    (set_td_total (recalc_total now p2) t2))
                    (set_pg_total (recalc_total now p2) p2))) by apply save_data_pg.
    pose proof (reachable_session_ids_distinct _ _ Hreach' Hp') as Hnd'.
    set (p' := _sync_to_pg _ _) in Hp', Hnd'.
    assert (Hsp : sessions p' = sessions p2) by reflexivity.
    assert (Hcur : get_current_session p' = Some (mkSession r now 0 "")).
    { unfold get_current_session; change (active_session_index p') with
        (active_session_index p2); rewrite Hsp, Hs2, Hidx, length_app, length_map, Hr.
      cbn [List.length].
      replace ((0 <=? Z.of_nat (List.length (sessions p1) + 1) - 1) &&
               (Z.of_nat (List.length (sessions p1) + 1) - 1 <?
                Z.of_nat (List.length (sessions p1) + 1))) with true
        by (symmetry; apply andb_true_intro; split; [apply Z.leb_le|apply Z.ltb_lt]; lia).
      rewrite Nat2Z.inj_add, Z.add_simpl_r, Nat2Z.id, nth_error_app2
        by (rewrite length_map; lia).
      rewrite length_map, Nat.sub_diag; reflexivity. }
    unfold get_current_session_time, get_current_session_w; rewrite Hp', Hcur.
    unfold get_session_work_seconds_by_id; rewrite Hp'.
    assert (Hin : In (mkSession r now 0 "") (sessions p'))
      by (rewrite Hsp, Hs2; apply in_or_app; right; left; reflexivity).
    rewrite (find_unique_id (sessions p') (mkSession r now 0 "") Hnd' Hin).
    cbn [send sstart sid].
    pose proof (sum_breaks_nonneg p' r now); simpl; lia.
Qed.

Lemma switch_session_keeps_total_witness :
  reachable world_switched /\ 0 < 2500 /\
  total_time (td (fst (switch_session 2500 world_switched))) = 1500 /\
  get_current_session_time 2500 (fst (switch_session 2500 world_switched)) = 0.
Proof.
  assert (H : 0 < 2500) by lia.
  split; [exact world_switched_reachable|split; [exact H|]].
  destruct (switch_session_keeps_total 2500 world_switched world_switched_reachable H)
    as [E1 E2].
  rewrite E1, E2; split; [vm_compute|]; reflexivity.
Defined.

(** When the add-on is unregistered ([clear_instance]) in a reachable state,
    every session is ended at the clock, the data is saved at the clock, and
    the saved total is the total at that instant before the sessions were
    closed, stored as a C [float] ([to_float32]): that total itself while it
    is below 2^24 seconds. *)
Theorem clear_instance_closes_all (now : Z) (w : World) (p : WTT_TimeData)
  (Hreach : reachable w) (Hnow : 0 < now) (Hpg : pg w = Some p) :
  exists p', clear_instance now w = Some p' /\
    sessions p' = map (close_s now) (sessions p) /\
    (forall s, In s (sessions p') -> 0 < send s) /\
    pg_last_save_time p' = now /\
    pg_total_time p' = to_float32 (total_time (td (update_total_time now w))).
Proof.
  pose proof (reachable_session_ids_distinct _ p Hreach Hpg) as Hnd.
  destruct w as [t q]; cbn in Hpg; subst q.
  unfold clear_instance, end_active_sessions; cbn [pg td].
  pose proof (end_active_sessions_pg_spec now t p Hnow) as H1.
  destruct (end_active_sessions_pg now t p) as [[t1 p1] c].
  destruct H1 as (_ & Hs1 & Hb1 & _).
  cbn [fst]; rewrite save_data_pg.
  eexists; split; [reflexivity|].
  cbn [_sync_to_pg set_pg_total sessions pg_last_save_time pg_total_time total_time
       set_td_last_save set_td_total].
  split; [exact Hs1|split; [rewrite Hs1; apply close_s_all_closed; exact Hnow|]].
  split; [reflexivity|].
  f_equal.
  apply (recalc_total_close_append now p p1 [] Hnow Hnd);
    [rewrite app_nil_r; exact Hs1|intros s []|exact Hb1].
Qed.

Lemma clear_instance_closes_all_witness :
  reachable world_switched /\ 0 < 2500 /\
  pg world_switched = Some (pg_of world_switched) /\
  option_map (fun p => (sessions p, pg_total_time p)) (clear_instance 2500 world_switched) =
    Some ([mkSession 1 1000 2000 ""; mkSession 2 2000 2500 ""], 1500).
Proof.
  assert (H : 0 < 2500) by lia.
  split; [exact world_switched_reachable|split; [exact H|split; [exact world_switched_pg|]]].
  destruct (clear_instance_closes_all 2500 world_switched (pg_of world_switched)
              world_switched_reachable H world_switched_pg) as (p' & Hp & Hs & _ & _ & Ht).
  rewrite Hp; cbn [option_map]; rewrite Hs, Ht; vm_compute; reflexivity.
Defined.

(** *** The timer callback within one second, and the activity handler *)

Lemma break_threshold_ge (pref : option Z) : 30 <= break_threshold pref.
Proof. unfold break_threshold; lia. Qed.

Lemma break_check_noop (now : Z) (pref : option Z) (q : WTT_TimeData) :
  (0 < last_activity_time q \/ last_activity_time q = now) ->
  (negb (is_on_break q) && (break_threshold pref <=? now - last_activity_time q)) = false ->
  (is_on_break q && (now - last_activity_time q <? 1)) = false ->
  break_check now pref q = q.
Proof.
  intros Hla C1 C2; unfold break_check; cbv zeta.
  destruct (last_activity_time q <=? 0) eqn:E.
  - assert (Hq : last_activity_time q = now) by (apply Z.leb_le in E; lia).
    assert (Hp0 : set_pg_last_activity now q = q)
      by (destruct q; cbn in *; subst; reflexivity).
    rewrite Hp0, C1, C2; reflexivity.
  - rewrite C1, C2; reflexivity.
Qed.

Lemma break_check_idem (now : Z) (pref : option Z) (p : WTT_TimeData) :
  break_check now pref (break_check now pref p) = break_check now pref p.
Proof.
  pose proof (break_threshold_ge pref) as Hth.
  pose proof (break_check_spec now pref p) as H; cbn zeta in H; destruct H as (_ & _ & H).
  set (la' := if last_activity_time p <=? 0 then now else last_activity_time p) in H.
  assert (Hla : 0 < la' \/ la' = now).
  { unfold la'; destruct (last_activity_time p <=? 0) eqn:E; [right; reflexivity|].
    left; apply Z.leb_gt in E; exact E. }
  revert H; destruct (negb (is_on_break p) && (break_threshold pref <=? now - la')) eqn:C1;
    intros H.
  - destruct H as (_ & Ho & _ & Hl).
    apply break_check_noop; rewrite ?Ho, ?Hl; [exact Hla|reflexivity|].
    apply andb_prop in C1 as [_ C1]; apply Z.leb_le in C1.
    simpl; apply Z.ltb_ge; lia.
  - revert H; destruct (is_on_break p && (now - la' <? 1)) eqn:C2; intros H.
    + destruct H as (_ & Ho & _ & Hl).
      apply break_check_noop; rewrite ?Ho, ?Hl; [right; reflexivity| |reflexivity].
      simpl; apply Z.leb_gt; lia.
    + destruct H as (_ & Ho & _ & Hl).
      apply break_check_noop; rewrite ?Ho, ?Hl; assumption.
Qed.

Ltac pg_red :=
  cbv beta iota zeta delta [set_pg_total set_pg_breaks set_pg_last_activity version
    pg_total_time pg_last_save_time pg_file_creation_time pg_file_id sessions
    active_session_index last_activity_time is_on_break break_sessions active_break_index].

Lemma break_check_set_pg_total (now : Z) (pref : option Z) (v : Z) (p : WTT_TimeData) :
  break_check now pref (set_pg_total v p) = set_pg_total v (break_check now pref p).
Proof.
  destruct p as [? ? ? ? ? ? ? la ? ? ?]; unfold break_check; pg_red.
  destruct (la <=? 0); pg_red.
  all: repeat match goal with
         | |- context [if ?c then _ else _] =>
             match type of c with bool => destruct c; pg_red end
         end;
    reflexivity.
Qed.

Lemma save_data_fixed (now : Z) (w : World) :
  update_total_time now (save_data now w) = save_data now w.
Proof. destruct w as [t [q|]]; reflexivity. Qed.

Lemma start_session_keeps_td_fields (now : Z) (w : World) :
  file_id (td (fst (start_session now w))) = file_id (td w) /\
  data_loaded (td (fst (start_session now w))) = data_loaded (td w).
Proof.
  destruct w as [t [p|]]; unfold start_session; cbn [pg td]; [|split; reflexivity].
  pose proof (start_session_pg_la_onb now t p) as H.
  destruct (start_session_pg now t p) as [[t' p'] r]; destruct H as (_ & _ & H1 & H2).
  split; assumption.
Qed.

Lemma start_session_then_save_quiet (now : Z) (pref : option Z) (w : World) (q : WTT_TimeData) :
  pg (save_data now (fst (start_session now w))) = Some q -> break_check now pref q = q.
Proof.
  pose proof (break_threshold_ge pref) as Hth.
  destruct w as [t [p|]]; unfold start_session; cbn [pg td].
  - pose proof (start_session_pg_la_onb now t p) as H.
    destruct (start_session_pg now t p) as [[t' p'] r]; destruct H as (Hl & Ho & _).
    cbn [fst]; rewrite save_data_pg; intros E; injection E as <-.
    apply break_check_noop; cbn [_sync_to_pg set_pg_total last_activity_time is_on_break];
      rewrite ?Hl, ?Ho; [right; reflexivity| |reflexivity].
    simpl; apply Z.leb_gt; lia.
  - cbn [fst save_data update_total_time pg]; discriminate.
Qed.

Lemma update_time_callback_fixed (now : Z) (filepath : string) (pref : option Z) (w : World) :
  update_total_time now w = w ->
  (forall q, pg w = Some q -> break_check now pref q = q) ->
  file_changed filepath (td w) = false ->
  update_time_callback now filepath pref w = w.
Proof.
  intros Hu Hb Hf; unfold update_time_callback.
  destruct w as [t [q|]]; cbn [pg td] in *.
  - rewrite (Hb q eq_refl), Hu; cbv zeta; cbn [td]; rewrite Hf; reflexivity.
  - rewrite Hu; cbv zeta; cbn [td]; rewrite Hf; reflexivity.
Qed.

Lemma file_changed_after_restart (now : Z) (filepath : string) (t : TimeData)
  (q : option WTT_TimeData) :
  file_changed filepath (td (save_data now (fst (start_session now
    (mkWorld (set_td_file_id (Some (basename filepath)) t) q))))) = false.
Proof.
  pose proof (proj1 (start_session_keeps_td_fields now
    (mkWorld (set_td_file_id (Some (basename filepath)) t) q))) as Hid.
  destruct (fst (start_session now _)) as [t5 [p5|]]; cbn [td] in Hid;
    unfold file_changed; cbn; rewrite Hid; cbn;
    rewrite String.eqb_refl, andb_false_r; reflexivity.
Qed.

(** With the clock unchanged, running the timer callback a second time
    changes nothing, whatever the first run did (break started or ended,
    file-path change handled). *)
Theorem update_time_callback_idempotent (now : Z) (filepath : string) (pref : option Z)
  (w : World) :
  update_time_callback now filepath pref (update_time_callback now filepath pref w) =
  update_time_callback now filepath pref w.
Proof.
  apply update_time_callback_fixed.
  - unfold update_time_callback.
    destruct (file_changed _ _); [apply save_data_fixed|apply update_total_time_twice].
  - intros q; unfold update_time_callback.
    destruct (file_changed _ _) eqn:Ef; [apply start_session_then_save_quiet|].
    destruct w as [t [p|]]; cbn [pg td update_total_time update_total_time_pg];
      [|discriminate].
    intros E; injection E as <-.
    rewrite break_check_set_pg_total, break_check_idem; reflexivity.
  - unfold update_time_callback; cbv zeta.
    match goal with |- file_changed _ (td (if ?c then _ else _)) = _ =>
      destruct c eqn:Ef; [|exact Ef] end.
    apply file_changed_after_restart.
Qed.

(** After an edit ([depsgraph_activity_handler]) the next timer run at the
    same instant, with the file path unchanged, ends a running break: the
    break at [active_break_index] (if in range) gets [end = now],
    [is_on_break] is cleared and [active_break_index] reset; when no break
    was running, the break list is left as it was. *)
Theorem activity_then_timer_ends_break (now : Z) (filepath : string) (pref : option Z)
  (t : TimeData) (p : WTT_TimeData) (Hfile : file_changed filepath t = false) :
  exists q,
    pg (update_time_callback now filepath pref
          (depsgraph_activity_handler now (mkWorld t (Some p)))) = Some q /\
    is_on_break q = false /\ last_activity_time q = now /\ sessions q = sessions p /\
    (is_on_break p = true ->
       active_break_index q = -1 /\
       break_sessions q =
         (if (0 <=? active_break_index p) &&
             (active_break_index p <? Z.of_nat (List.length (break_sessions p)))
          then list_update_nth (Z.to_nat (active_break_index p)) (set_bend now)
                 (break_sessions p)
          else break_sessions p)) /\
    (is_on_break p = false ->
       active_break_index q = active_break_index p /\ break_sessions q = break_sessions p).
Proof.
  pose proof (break_threshold_ge pref) as Hth.
  unfold depsgraph_activity_handler, update_time_callback; cbn [pg td]; cbv zeta.
  cbn [pg td].
  rewrite (Hfile : file_changed filepath (td (update_total_time now
             (mkWorld t (Some (break_check now pref (set_pg_last_activity now p)))))) = false).
  set (p' := set_pg_last_activity now p).
  pose proof (break_check_spec now pref p') as H; cbn zeta in H.
  destruct H as (Hs & _ & H).
  replace (if last_activity_time p' <=? 0 then now else last_activity_time p') with now in H
    by (unfold p'; cbn; destruct (now <=? 0); reflexivity).
  rewrite Z.sub_diag in H.
  replace (break_threshold pref <=? 0) with false in H by (symmetry; apply Z.leb_gt; lia).
  rewrite andb_false_r in H; cbn [Z.ltb Z.compare] in H.
  eexists; split; [reflexivity|].
  cbn [set_pg_total is_on_break last_activity_time sessions active_break_index
       break_sessions].
  unfold p' in H, Hs; cbn [is_on_break set_pg_last_activity active_break_index
                          break_sessions sessions] in H, Hs.
  destruct (is_on_break p) eqn:Ho; cbn [andb] in H; destruct H as (Hb & Hob & Hab & Hl).
  - repeat split; try assumption; discriminate.
  - repeat split; try assumption; discriminate.
Qed.

Lemma activity_then_timer_ends_break_witness :
  file_changed "" td0 = false /\
  option_map (fun q => (is_on_break q, break_sessions q))
    (pg (update_time_callback 1000 "" None
           (depsgraph_activity_handler 1000 (mkWorld td0 (Some pg_two_sessions))))) =
  Some (false, [mkBreak 1 1 150 200 "inactivity" ""; mkBreak 2 2 450 1000 "inactivity" ""]).
Proof.
  assert (Hf : file_changed "" td0 = false) by reflexivity.
  split; [exact Hf|].
  destruct (activity_then_timer_ends_break 1000 "" None td0 pg_two_sessions Hf)
    as (q & Hq & Ho & _ & _ & Hon & _).
  destruct (Hon eq_refl) as [_ Hb].
  rewrite Hq; cbn [option_map]; rewrite Ho, Hb; vm_compute; reflexivity.
Defined.

(** *** Loading: [load_handler], [ensure_loaded] and [delayed_start] *)

Lemma load_data_some (now : Z) (filepath : string) (t : TimeData) (p : WTT_TimeData) :
  exists p2, pg (load_data now filepath (mkWorld t (Some p))) = Some p2 /\
    sessions p2 = sessions p /\ active_session_index p2 = active_session_index p /\
    break_sessions p2 = break_sessions p /\ is_on_break p2 = is_on_break p /\
    active_break_index p2 = active_break_index p /\
    file_id (td (load_data now filepath (mkWorld t (Some p)))) =
      Some (if String.eqb filepath EmptyString then "unsaved_file"%string
            else basename filepath) /\
    data_loaded (td (load_data now filepath (mkWorld t (Some p)))) = data_loaded t.
Proof.
  unfold load_data; cbn [pg td]; cbv zeta.
  destruct (last_activity_time p <=? 0); [destruct (String.eqb (pg_file_id (set_pg_last_activity now p)) EmptyString)
                                         |destruct (String.eqb (pg_file_id p) EmptyString)];
    eexists; (split; [reflexivity|]); repeat split.
Qed.

(** [load_handler] does its work once: afterwards the data is marked
    loaded, and a second [load_post] event or the delayed start leaves the
    state exactly as it is. *)
Theorem load_handler_once (now : Z) (filepath : string) (w : World) :
  data_loaded (td (load_handler now filepath w)) = true /\
  (forall now' filepath', load_handler now' filepath' (load_handler now filepath w) =
                          load_handler now filepath w) /\
  (forall now' filepath', delayed_start now' filepath' (load_handler now filepath w) =
                          load_handler now filepath w).
Proof.
  assert (Hl : data_loaded (td (load_handler now filepath w)) = true).
  { unfold load_handler; destruct (data_loaded (td w)) eqn:E; [exact E|]; cbv zeta.
    rewrite (proj2 (start_session_keeps_td_fields now _)); reflexivity. }
  split; [exact Hl|].
  set (w' := load_handler now filepath w) in *; clearbody w'.
  split; intros now' filepath'; [unfold load_handler|unfold delayed_start];
    rewrite Hl; reflexivity.
Qed.

(** The first [delayed_start] on data not yet loaded loads it (the file id
    is taken from the path, ["unsaved_file"] for an unsaved file) and, unlike
    [load_handler], opens a session only when the document has none: an
    empty list gets the single open session [#1] started now, while a
    non-empty list keeps its sessions, active index and breaks untouched. *)
Theorem delayed_start_first_run (now : Z) (filepath : string) (t : TimeData)
  (p : WTT_TimeData) (Hnl : data_loaded t = false) (Hnow : 0 < now) :
  let w' := delayed_start now filepath (mkWorld t (Some p)) in
  data_loaded (td w') = true /\
  file_id (td w') = Some (if String.eqb filepath EmptyString then "unsaved_file"%string
                          else basename filepath) /\
  exists p', pg w' = Some p' /\
    (sessions p = [] ->
       sessions p' = [mkSession 1 now 0 ""] /\ active_session_index p' = 0 /\
       is_on_break p' = false) /\
    (sessions p <> [] ->
       sessions p' = sessions p /\ active_session_index p' = active_session_index p /\
       break_sessions p' = break_sessions p /\ is_on_break p' = is_on_break p).
Proof.
  unfold delayed_start, ensure_loaded; cbn [td]; rewrite Hnl; cbv zeta.
  destruct (load_data_some now filepath t p) as (p2 & Hp2 & Hs & Hi & Hb & Ho & _ & Hf & _).
  cbn [pg]; rewrite Hp2.
  set (t1 := set_td_loaded true (td (load_data now filepath (mkWorld t (Some p))))).
  assert (Ht1 : data_loaded t1 = true /\ file_id t1 = file_id (td (load_data now filepath
                  (mkWorld t (Some p))))) by (split; reflexivity).
  rewrite Hf in Ht1; clearbody t1.
  destruct (sessions p) as [|s0 ss] eqn:Es.
  - rewrite Hs; cbn [List.length Nat.eqb].
    unfold start_session; cbn [pg td].
    pose proof (start_session_pg_spec now t1 p2 Hnow) as H.
    pose proof (start_session_pg_la_onb now t1 p2) as H'.
    destruct (start_session_pg now t1 p2) as [[t3 p3] r].
    destruct H as (Hr & Hs3 & _ & Hi3 & Ho3 & _); destruct H' as (_ & _ & Hf3 & Hd3).
    rewrite Hs in Hr, Hs3; cbn in Hr; subst r.
    cbn [fst td pg]; rewrite Hf3, Hd3.
    split; [apply Ht1|]; split; [apply Ht1|].
    exists p3; split; [reflexivity|]; split.
    + intros _; rewrite Hs3, Hi3, Ho3; repeat split; reflexivity.
    + intros H; exfalso; apply H; reflexivity.
  - rewrite Hs; cbn [List.length Nat.eqb fst td pg].
    split; [apply Ht1|]; split; [apply Ht1|].
    exists p2; split; [reflexivity|]; split; [discriminate|].
    intros _; repeat split; assumption.
Qed.

Lemma delayed_start_first_run_witness :
  data_loaded (mkTD 0 0 0 None false) = false /\ 0 < 1000 /\
  option_map (fun p => (sessions p, active_session_index p))
    (pg (delayed_start 1000 "/home/u/scene.blend"
           (mkWorld (mkTD 0 0 0 None false) (Some pg_empty)))) =
  Some ([mkSession 1 1000 0 ""], 0).
Proof.
  assert (Hl : data_loaded (mkTD 0 0 0 None false) = false) by reflexivity.
  assert (Hn : 0 < 1000) by lia.
  split; [exact Hl|]; split; [exact Hn|].
  destruct (delayed_start_first_run 1000 "/home/u/scene.blend" (mkTD 0 0 0 None false)
              pg_empty Hl Hn) as (_ & _ & p' & Hp & He & _).
  destruct (He eq_refl) as (Hs & Hi & _).
  rewrite Hp; cbn [option_map]; rewrite Hs, Hi; reflexivity.
Defined.

(** *** Saving and the file-change check of the timer *)

Lemma save_data_file_id (now : Z) (w : World) :
  file_id (td (save_data now w)) = file_id (td w).
Proof. destruct w as [t [q|]]; reflexivity. Qed.

Lemma update_total_time_file_id (now : Z) (w : World) :
  file_id (td (update_total_time now w)) = file_id (td w).
Proof. destruct w as [t [q|]]; reflexivity. Qed.

Lemma save_handler_file_unchanged (now : Z) (filepath : string) (w : World) :
  file_changed filepath (td (save_handler now filepath w)) = false.
Proof.
  unfold save_handler, file_changed; rewrite save_data_file_id.
  destruct (String.eqb filepath EmptyString) eqn:E; [reflexivity|].
  cbn [td file_id set_td_file_id]; rewrite String.eqb_refl, andb_false_r; reflexivity.
Qed.

(** A save, also under a new path ("save as"), records the path's base
    name as the file id, so the following timer run, at any time, never
    takes the file for a different one: it keeps the sessions and the
    active session index as the save left them (no session is ended or
    started). *)
Theorem save_then_timer_keeps_sessions (now now' : Z) (filepath : string)
  (pref : option Z) (w : World) :
  option_map sess_frame
    (pg (update_time_callback now' filepath pref (save_handler now filepath w))) =
  option_map sess_frame (pg w).
Proof.
  pose proof (save_handler_file_unchanged now filepath w) as Hf.
  rewrite <- (frame_save_handler now filepath w).
  set (W := save_handler now filepath w) in *; clearbody W.
  unfold update_time_callback; cbv zeta.
  assert (Hid : forall W1, td W1 = td W ->
            file_changed filepath (td (update_total_time now' W1)) = false).
  { intros W1 E; unfold file_changed in *; rewrite update_total_time_file_id, E; exact Hf. }
  destruct W as [t [q|]]; cbn [pg td] in *.
  - rewrite Hid by reflexivity; rewrite frame_update_total_time; cbn [pg option_map].
    rewrite frame_break_check; reflexivity.
  - rewrite Hid by reflexivity; rewrite frame_update_total_time; reflexivity.
Qed.
